(** * students-api: a shallow embedding of the CRUD service

    The development follows the packages of the repository:

    - [types]     the [Student] record (internal/types);
    - [errors], [builtin]  Go error values and slices, as far as the code
                  inspects them;
    - [sql]       the environment: database/sql over go-sqlite3, reduced to
                  the five statements the repository prepares;
    - [sqlite]    internal/storage/sqlite, the five methods of [*SQLite];
    - [storage]   the [Storage] interface (internal/storage);
    - [strconv], [json], [validator], [http]  the library calls of the
                  handlers;
    - [response]  internal/utils/response;
    - [student]   internal/http/handlers/student, the five handlers;
    - [config]    internal/config, [MustLoad];
    - [scenario], [spy]  sequences of storage operations, and a storage
                  that logs its calls, for the statements below.

    Conventions.  Go's [int] and [int64] are modelled as [Z]; the build
    needs cgo (go-sqlite3), and [int] is taken to be 64 bits wide, so the
    values that reach the store lie in the int64 range by construction
    (strconv.ParseInt and the JSON decoder check it).  Go strings are byte
    strings, here [string].  A Go function returning [(T, error)] returns
    a pair [(T * option error)], with [None] for the nil error; a method
    that touches the database also threads the state of the database. *)

From stdpp Require Import base option list strings pretty gmap fin_maps.
From Stdlib Require Import ZArith Lia Ascii String.

Local Open Scope Z_scope.
Local Open Scope string_scope.

(* ===================================================================== *)
(** ** internal/types *)

Module types.

(** [type Student struct { ID int; Name string; Email string; Age int }] *)
Record Student := mkStudent {
  ID    : Z;
  Name  : string;
  Email : string;
  Age   : Z
}.

(** The zero value [types.Student{}]. *)
Definition zero : Student := mkStudent 0 "" "" 0.

#[global] Instance Student_eq_dec : EqDecision Student.
Proof. solve_decision. Defined.

End types.

(* ===================================================================== *)
(** ** Go error values *)

Module errors.

(** The code compares errors with two sentinels ([io.EOF] through
    [errors.Is], [sql.ErrNoRows] through [==]), builds errors with
    [errors.New] and [fmt.Errorf] without [%w] (both give a fresh value
    that only carries its text), and wraps errors with [fmt.Errorf] and
    [%w] (the text of the whole message, and the wrapped error). *)
Inductive error :=
| EOF                                       (* io.EOF *)
| ErrNoRows                                 (* sql.ErrNoRows *)
| errorString (s : string)                  (* errors.New(s) *)
| wrapError (msg : string) (err : error).   (* fmt.Errorf("...%w", err) *)

#[global] Instance error_eq_dec : EqDecision error.
Proof. solve_decision. Defined.

(** [err.Error()] *)
Definition Error (e : error) : string :=
  match e with
  | EOF => "EOF"
  | ErrNoRows => "sql: no rows in result set"
  | errorString s => s
  | wrapError msg _ => msg
  end.

(** [errors.New(s)] *)
Definition New (s : string) : error := errorString s.

(** [errors.Unwrap(err)] *)
Definition Unwrap (e : error) : option error :=
  match e with
  | wrapError _ err => Some err
  | _ => None
  end.

(** [errors.Is(err, target)] for a sentinel target: walks the chain of
    wrapped errors and compares each link with [target]. *)
Fixpoint Is (e target : error) : bool :=
  if decide (e = target) then true
  else match e with
       | wrapError _ err => Is err target
       | _ => false
       end.

(** [fmt.Errorf(prefix + "%w", err)] *)
Definition Errorf_w (prefix : string) (err : error) : error :=
  wrapError (prefix +:+ Error err) err.

(** [fmt.Errorf(prefix + "%d", n)] *)
Definition Errorf_d (prefix : string) (n : Z) : error :=
  errorString (prefix +:+ pretty n).

End errors.
Export errors.

(* ===================================================================== *)
(** ** Go slices *)

Module builtin.

(** A Go slice is nil or holds elements; [make([]T, 0)] is not nil. *)
Inductive slice (A : Type) :=
| nil_slice
| slice_of (l : list A).
#[global] Arguments nil_slice {A}.
#[global] Arguments slice_of {A} l.

(** [append(s, x)] *)
Definition append {A} (s : slice A) (x : A) : slice A :=
  match s with
  | nil_slice => slice_of [x]
  | slice_of l => slice_of (l ++ [x])%list
  end.

End builtin.
Export builtin.

(* ===================================================================== *)
(** ** The database: database/sql over go-sqlite3

    The repository talks to SQLite through five prepared statements on
    one table,

      [students(id INTEGER PRIMARY KEY AUTOINCREMENT,
                name TEXT NOT NULL, email TEXT NOT NULL, age INTEGER NOT NULL)].

    The table is a finite map from the rowid (the [id] column) to the
    other three columns.  [AUTOINCREMENT] keeps, in [sqlite_sequence], the
    largest rowid the table ever held; a new row gets one more than the
    largest of that value and of the rowids present, and the insert fails
    once that largest value is the greatest 64-bit integer.

    A call of the driver can also fail for reasons outside the program
    (I/O, locking, a closed handle).  [faults] scripts them: every call
    that can fail takes the next entry, [Some msg] for a failure with that
    text and [None] for none; an exhausted script means no further
    failure.  A failed statement leaves the table as it was. *)

Module sql.

Record Row := mkRow { name : string; email : string; age : Z }.

Record DB := mkDB {
  students        : gmap Z Row;
  sqlite_sequence : Z;
  faults          : list (option string)
}.

Definition MAX_ROWID : Z := 9223372036854775807.

(** The outcome of the next driver call, and the rest of the script. *)
Definition driver (db : DB) : option error * DB :=
  match faults db with
  | [] => (None, db)
  | f :: fs =>
      (errorString <$> f, mkDB (students db) (sqlite_sequence db) fs)
  end.

(** [db.Prepare(query)], for any of the five statements. *)
Definition Prepare (db : DB) : option error * DB := driver db.

(** The largest rowid the table holds or ever held. *)
Definition largest_rowid (db : DB) : Z :=
  map_fold (λ k _ acc, Z.max k acc) (sqlite_sequence db) (students db).

(** [sql.Result], as far as the code reads it. *)
Record Result := mkResult { lastInsertId : Z }.

(** [stmt.Exec(name, email, age)] for
    [INSERT INTO students (name, email, age) VALUES (?, ?, ?)]. *)
Definition ExecInsert (name email : string) (age : Z) (db : DB)
  : (Result * option error) * DB :=
  match driver db with
  | (Some e, db1) => ((mkResult 0, Some e), db1)
  | (None, db1) =>
      let top := largest_rowid db1 in
      if decide (MAX_ROWID <= top)
      then ((mkResult 0, Some (errorString "database or disk is full")), db1)
      else
        let id := top + 1 in
        ((mkResult id, None),
         mkDB (<[id := mkRow name email age]> (students db1)) id (faults db1))
  end.

(** [result.LastInsertId()]: go-sqlite3 keeps the rowid with the result
    and returns it with a nil error. *)
Definition LastInsertId (r : Result) : Z * option error :=
  (lastInsertId r, None).

(** [stmt.QueryRow(id).Scan(&ID, &Name, &Email, &Age)] for
    [SELECT id, name, email, age FROM students WHERE id = ? LIMIT 1]. *)
Definition QueryRowScan (id : Z) (db : DB)
  : (types.Student * option error) * DB :=
  match driver db with
  | (Some e, db1) => ((types.zero, Some e), db1)
  | (None, db1) =>
      match students db1 !! id with
      | None => ((types.zero, Some ErrNoRows), db1)
      | Some r => ((types.mkStudent id (name r) (email r) (age r), None), db1)
      end
  end.

(** [stmt.Query()] for [SELECT id, name, email, age FROM students]: the
    cursor, as the rows it will deliver.  The statement has no
    [ORDER BY]; SQLite delivers the rows by ascending rowid, the model
    in the order of [map_to_list], and no statement below depends on the
    order. *)
Definition Query (db : DB) : (list (Z * Row) * option error) * DB :=
  match driver db with
  | (Some e, db1) => (([], Some e), db1)
  | (None, db1) => ((map_to_list (students db1), None), db1)
  end.

(** [rows.Scan(&ID, &Name, &Email, &Age)] on the current row. *)
Definition RowsScan (r : Z * Row) (db : DB)
  : (types.Student * option error) * DB :=
  match driver db with
  | (Some e, db1) => ((types.zero, Some e), db1)
  | (None, db1) =>
      ((types.mkStudent r.1 (name r.2) (email r.2) (age r.2), None), db1)
  end.

(** [rows.Err()] after the loop. *)
Definition RowsErr (db : DB) : option error * DB := driver db.

(** [stmt.Exec(name, email, age, id)] for
    [UPDATE students SET name = ?, email = ?, age = ? WHERE id = ?]:
    rewrites the matching row, if there is one. *)
Definition ExecUpdate (name email : string) (age id : Z) (db : DB)
  : option error * DB :=
  match driver db with
  | (Some e, db1) => (Some e, db1)
  | (None, db1) =>
      (None,
       mkDB (alter (λ _, mkRow name email age) id (students db1))
            (sqlite_sequence db1) (faults db1))
  end.

(** [stmt.Exec(id)] for [DELETE FROM students WHERE id = ?]. *)
Definition ExecDelete (id : Z) (db : DB) : option error * DB :=
  match driver db with
  | (Some e, db1) => (Some e, db1)
  | (None, db1) =>
      (None, mkDB (delete id (students db1)) (sqlite_sequence db1) (faults db1))
  end.

End sql.

(* ===================================================================== *)
(** ** internal/storage/sqlite *)

Module sqlite.
Import sql.

(** [sqlite.New] on a database file that does not exist yet: the table
    is created empty; [fs] is what the driver will report later. *)
Definition New (fs : list (option string)) : DB := mkDB ∅ 0 fs.

Definition CreateStudent (name email : string) (age : Z) (s : DB)
  : (Z * option error) * DB :=
  match Prepare s with
  | (Some err, s1) =>
      ((0, Some (Errorf_w "CreateStudent: prepare: " err)), s1)
  | (None, s1) =>
      match ExecInsert name email age s1 with
      | ((_, Some err), s2) =>
          ((0, Some (Errorf_w "CreateStudent: exec: " err)), s2)
      | ((result, None), s2) =>
          match LastInsertId result with
          | (_, Some err) =>
              ((0, Some (Errorf_w "CreateStudent: last insert id: " err)), s2)
          | (lastID, None) => ((lastID, None), s2)
          end
      end
  end.

Definition GetStudentByID (id : Z) (s : DB)
  : (types.Student * option error) * DB :=
  match Prepare s with
  | (Some err, s1) =>
      ((types.zero, Some (Errorf_w "GetStudentByID: prepare: " err)), s1)
  | (None, s1) =>
      match QueryRowScan id s1 with
      | ((_, Some err), s2) =>
          if decide (err = ErrNoRows)
          then ((types.zero, Some (Errorf_d "no student found with id: " id)), s2)
          else ((types.zero, Some (Errorf_w "GetStudentByID: scan: " err)), s2)
      | ((student, None), s2) => ((student, None), s2)
      end
  end.

(** The loop [for rows.Next() { ... }] of [GetStudents]. *)
Fixpoint scan_rows (rows : list (Z * Row)) (students : slice types.Student)
    (s : DB) : (slice types.Student * option error) * DB :=
  match rows with
  | [] => ((students, None), s)
  | r :: rows' =>
      match RowsScan r s with
      | ((_, Some err), s1) =>
          ((nil_slice, Some (Errorf_w "GetStudents: scan row: " err)), s1)
      | ((student, None), s1) =>
          scan_rows rows' (append students student) s1
      end
  end.

Definition GetStudents (s : DB)
  : (slice types.Student * option error) * DB :=
  match Prepare s with
  | (Some err, s1) =>
      ((nil_slice, Some (Errorf_w "GetStudents: prepare: " err)), s1)
  | (None, s1) =>
      match Query s1 with
      | ((_, Some err), s2) =>
          ((nil_slice, Some (Errorf_w "GetStudents: query: " err)), s2)
      | ((rows, None), s2) =>
          match scan_rows rows (slice_of []) s2 with
          | ((_, Some err), s3) => ((nil_slice, Some err), s3)
          | ((students, None), s3) =>
              match RowsErr s3 with
              | (Some err, s4) =>
                  ((nil_slice,
                    Some (Errorf_w "GetStudents: rows iteration: " err)), s4)
              | (None, s4) => ((students, None), s4)
              end
          end
      end
  end.

Definition UpdateStudentByID (id : Z) (student : types.Student) (s : DB)
  : (types.Student * option error) * DB :=
  match Prepare s with
  | (Some err, s1) =>
      ((types.zero, Some (Errorf_w "UpdateStudentByID: prepare: " err)), s1)
  | (None, s1) =>
      match ExecUpdate (types.Name student) (types.Email student)
                       (types.Age student) id s1 with
      | (Some err, s2) =>
          ((types.zero, Some (Errorf_w "UpdateStudentByID: exec: " err)), s2)
      | (None, s2) => GetStudentByID id s2
      end
  end.

Definition DeleteStudentByID (id : Z) (s : DB) : option error * DB :=
  match Prepare s with
  | (Some err, s1) =>
      (Some (Errorf_w "DeleteStudentByID: prepare: " err), s1)
  | (None, s1) =>
      match ExecDelete id s1 with
      | (Some err, s2) =>
          (Some (Errorf_w "DeleteStudentByID: exec: " err), s2)
      | (None, s2) => (None, s2)
      end
  end.

End sqlite.

(* ===================================================================== *)
(** ** internal/storage: the interface the handlers depend on *)

Module storage.

(** [type Storage interface { ... }], over the state [S] of the
    implementation behind it. *)
Class Storage (S : Type) := {
  CreateStudent : string → string → Z → S → (Z * option error) * S;
  GetStudentByID : Z → S → (types.Student * option error) * S;
  GetStudents : S → (slice types.Student * option error) * S;
  UpdateStudentByID :
    Z → types.Student → S → (types.Student * option error) * S;
  DeleteStudentByID : Z → S → option error * S
}.

End storage.

(** [*sqlite.SQLite] implements [storage.Storage]. *)
#[global] Instance SQLite_Storage : storage.Storage sql.DB := {|
  storage.CreateStudent := sqlite.CreateStudent;
  storage.GetStudentByID := sqlite.GetStudentByID;
  storage.GetStudents := sqlite.GetStudents;
  storage.UpdateStudentByID := sqlite.UpdateStudentByID;
  storage.DeleteStudentByID := sqlite.DeleteStudentByID
|}.

(* ===================================================================== *)
(** ** strconv *)

Module strconv.

Definition digit (a : Ascii.ascii) : option Z :=
  let n := Z.of_N (Ascii.N_of_ascii a) in
  if decide (48 <= n <= 57) then Some (n - 48) else None.

(** The digits of an unsigned decimal numeral, most significant first. *)
Fixpoint digits (s : string) (acc : Z) : option Z :=
  match s with
  | EmptyString => Some acc
  | String a s' =>
      match digit a with
      | Some d => digits s' (10 * acc + d)
      | None => None
      end
  end.

Definition ErrSyntax : error := errorString "invalid syntax".
Definition ErrRange : error := errorString "value out of range".

(** [strconv.ParseInt(s, 10, 64)]: an optional sign, then one or more
    decimal digits, the value within the int64 range; out of the range
    the nearest bound is returned with the error.  The [*NumError] is
    reduced to the cause it wraps: the handlers only test the error
    against nil.  Which of the two causes is reported differs from the
    library on one kind of input: digits that already overflow followed
    by a character that is no digit are a range error there and a
    syntax error here; an error either way. *)
Definition ParseInt (s : string) : Z * option error :=
  let '(neg, s') :=
    match s with
    | String "+"%char r => (false, r)
    | String "-"%char r => (true, r)
    | _ => (false, s)
    end in
  match s' with
  | EmptyString => (0, Some ErrSyntax)
  | _ =>
      match digits s' 0 with
      | None => (0, Some ErrSyntax)
      | Some un =>
          if negb neg && bool_decide (2 ^ 63 <= un) then (2 ^ 63 - 1, Some ErrRange)
          else if neg && bool_decide (2 ^ 63 < un) then (- 2 ^ 63, Some ErrRange)
          else (if neg then - un else un, None)
      end
  end.

End strconv.

(* ===================================================================== *)
(** ** encoding/json *)

Module json.

(** A JSON value.  A number is kept as the integer it denotes when its
    literal has neither fraction nor exponent, and as its literal
    otherwise. *)
#[local] Unset Elimination Schemes.
Inductive value :=
| Null
| Bool (b : bool)
| Int (z : Z)
| Frac (literal : string)
| Str (s : string)
| Array (l : list value)
| Object (members : list (string * value)).
#[local] Set Elimination Schemes.

(** What [json.NewDecoder(r.Body)] finds in the body of a request: no
    value at all, something that is not JSON (or is cut short), or a
    first JSON value. *)
Inductive Body :=
| Empty
| Malformed (msg : string)
| Value (v : value).

(** The fields of [types.Student] with their [json:"..."] names. *)
Inductive field := fID | fName | fEmail | fAge.

Definition fields : list (string * field) :=
  [("id", fID); ("name", fName); ("email", fEmail); ("age", fAge)].

Definition lower (a : Ascii.ascii) : Ascii.ascii :=
  let n := Ascii.N_of_ascii a in
  if decide (65 <= n <= 90)%N then Ascii.ascii_of_N (n + 32) else a.

(** Case folding of a key; the four names hold no letter with a fold
    outside ASCII. *)
Fixpoint foldName (s : string) : string :=
  match s with
  | EmptyString => EmptyString
  | String a s' => String (lower a) (foldName s')
  end.

Definition lookup_name (key : string) : option field :=
  snd <$> List.find (λ f, bool_decide (f.1 = key)) fields.

(** The field a key of the object goes to: the exact name first, then
    the name up to case. *)
Definition find_field (key : string) : option field :=
  match lookup_name key with
  | Some f => Some f
  | None => lookup_name (foldName key)
  end.

Definition field_name (f : field) : string :=
  match f with fID => "id" | fName => "name" | fEmail => "email" | fAge => "age" end.

Definition field_type (f : field) : string :=
  match f with fID | fAge => "int" | fName | fEmail => "string" end.

(** How the decoder names the kind of a value it cannot store. *)
Definition kind (v : value) : string :=
  match v with
  | Null => "null"
  | Bool _ => "bool"
  | Int _ | Frac _ => "number"
  | Str _ => "string"
  | Array _ => "array"
  | Object _ => "object"
  end.

(** [UnmarshalTypeError.Value]: the kind, and for a number that does not
    fit an integer field the literal after it. *)
Definition describe (f : option field) (v : value) : string :=
  match f, v with
  | Some (fID | fAge), Int z => "number " +:+ pretty z
  | Some (fID | fAge), Frac lit => "number " +:+ lit
  | _, _ => kind v
  end.

(** [*json.UnmarshalTypeError] for a member of the struct and for the
    struct itself, as the error the handlers see (they read its text).
    The text names the field by its tag; some versions of the library
    print the key as the body spelled it ([Student.ID] for ["ID"]).  The
    statements below use that there is a text, not which. *)
Definition UnmarshalTypeError (v : value) (f : field) : error :=
  errorString ("json: cannot unmarshal " +:+ describe (Some f) v +:+
               " into Go struct field Student." +:+ field_name f +:+
               " of type " +:+ field_type f).

Definition UnmarshalTypeError_top (v : value) : error :=
  errorString ("json: cannot unmarshal " +:+ describe None v +:+
               " into Go value of type types.Student").

(** [d.saveError]: only the first error is kept. *)
Definition saveError (saved : option error) (e : error) : option error :=
  match saved with Some _ => saved | None => Some e end.

(** One member value into one field.  [null] leaves an int or a string
    as it is; a value of another kind, or an integer outside [int],
    is recorded as an error and decoding goes on. *)
Definition set_field (f : field) (v : value) (st : types.Student * option error)
  : types.Student * option error :=
  let '(s, saved) := st in
  match f, v with
  | _, Null => (s, saved)
  | fID, Int z =>
      if decide (- 2 ^ 63 <= z < 2 ^ 63)
      then (types.mkStudent z (types.Name s) (types.Email s) (types.Age s), saved)
      else (s, saveError saved (UnmarshalTypeError v f))
  | fAge, Int z =>
      if decide (- 2 ^ 63 <= z < 2 ^ 63)
      then (types.mkStudent (types.ID s) (types.Name s) (types.Email s) z, saved)
      else (s, saveError saved (UnmarshalTypeError v f))
  | fName, Str x =>
      (types.mkStudent (types.ID s) x (types.Email s) (types.Age s), saved)
  | fEmail, Str x =>
      (types.mkStudent (types.ID s) (types.Name s) x (types.Age s), saved)
  | _, _ => (s, saveError saved (UnmarshalTypeError v f))
  end.

(** The members of an object, in the order of the text; a key that names
    no field is skipped. *)
Fixpoint object (members : list (string * value))
    (st : types.Student * option error) : types.Student * option error :=
  match members with
  | [] => st
  | (key, v) :: rest =>
      match find_field key with
      | Some f => object rest (set_field f v st)
      | None => object rest st
      end
  end.

(** [json.NewDecoder(r.Body).Decode(&student)] *)
Definition Decode (b : Body) (student : types.Student)
  : types.Student * option error :=
  match b with
  | Empty => (student, Some EOF)
  | Malformed msg => (student, Some (errorString msg))
  | Value Null => (student, None)
  | Value (Object members) => object members (student, None)
  | Value v => (student, Some (UnmarshalTypeError_top v))
  end.

End json.

(* ===================================================================== *)
(** ** github.com/go-playground/validator *)

Module validator.

(** [validator.FieldError], as far as [response.ValidationError] reads
    it. *)
Record FieldError := mkFieldError { Field : string; ActualTag : string }.

(** [validator.ValidationErrors] *)
Definition ValidationErrors := list FieldError.

(** The tag [validate:"required"]: the field must not hold the zero
    value of its type. *)
Definition required_string (field : string) (v : string) : ValidationErrors :=
  if decide (v = "") then [mkFieldError field "required"] else [].

Definition required_int (field : string) (v : Z) : ValidationErrors :=
  if decide (v = 0) then [mkFieldError field "required"] else [].

(** The field errors of a [types.Student], in the order of the fields;
    [ID] carries no [validate] tag. *)
Definition field_errors (s : types.Student) : ValidationErrors :=
  (required_string "Name" (types.Name s) ++
   required_string "Email" (types.Email s) ++
   required_int "Age" (types.Age s))%list.

(** [validator.New().Struct(student)]: nil when no rule fails, the
    [ValidationErrors] otherwise. *)
Definition Struct (s : types.Student) : option ValidationErrors :=
  match field_errors s with
  | [] => None
  | errs => Some errs
  end.

End validator.

(* ===================================================================== *)
(** ** internal/utils/response *)

Module response.

(** [type Response struct { Status string; Error string }] *)
Record Response := mkResponse { Status : string; Error : string }.

Definition StatusOK : string := "ok".
Definition StatusError : string := "error".

(** The values the handlers hand to [WriteJSON] as [data any]. *)
Inductive data :=
| of_Response (r : Response)
| of_id (lastID : Z)                          (* map[string]int64{"id": lastID} *)
| of_Student (s : types.Student)
| of_Students (l : slice types.Student)
| of_status (s : string).                     (* map[string]string{"status": s} *)

Definition Student_json (s : types.Student) : json.value :=
  json.Object [("id", json.Int (types.ID s));
               ("name", json.Str (types.Name s));
               ("email", json.Str (types.Email s));
               ("age", json.Int (types.Age s))].

(** [json.NewEncoder(w).Encode(data)], as the JSON value written (the
    encoder adds a newline after it).  A nil slice is written as
    [null].  A [Str s] stands for what the encoder writes for the Go
    string [s]: it replaces bytes that are not valid UTF-8 by U+FFFD,
    which cannot occur in a string that came through the decoder. *)
Definition Encode (d : data) : json.value :=
  match d with
  | of_Response r =>
      json.Object [("status", json.Str (Status r)); ("error", json.Str (Error r))]
  | of_id lastID => json.Object [("id", json.Int lastID)]
  | of_Student s => Student_json s
  | of_Students nil_slice => json.Null
  | of_Students (slice_of l) => json.Array (Student_json <$> l)
  | of_status s => json.Object [("status", json.Str s)]
  end.

(** What a handler leaves in the [http.ResponseWriter]. *)
Record written := mkWritten {
  ContentType : string;
  StatusCode  : Z;
  Body        : json.value
}.

Definition WriteJSON (status : Z) (d : data) : written :=
  mkWritten "application/json" status (Encode d).

Definition GeneralError (err : error) : Response :=
  mkResponse StatusError (errors.Error err).

(** [strings.Join(elems, sep)] *)
Fixpoint Join (elems : list string) (sep : string) : string :=
  match elems with
  | [] => ""
  | [e] => e
  | e :: rest => e +:+ sep +:+ Join rest sep
  end.

(** The sentence for one field error. *)
Definition message (e : validator.FieldError) : string :=
  if decide (validator.ActualTag e = "required")
  then "field " +:+ validator.Field e +:+ " is required"
  else if decide (validator.ActualTag e = "email")
  then "field " +:+ validator.Field e +:+ " must be a valid email address"
  else "field " +:+ validator.Field e +:+ " is invalid".

Definition ValidationError (errs : validator.ValidationErrors) : Response :=
  mkResponse StatusError (Join (message <$> errs) ", ").

End response.

(* ===================================================================== *)
(** ** net/http status codes and the request *)

Module http.

Definition StatusOK : Z := 200.
Definition StatusCreated : Z := 201.
Definition StatusBadRequest : Z := 400.
Definition StatusInternalServerError : Z := 500.

(** [*http.Request], as far as the handlers read it: the [{id}] segment
    of the path and the body. *)
Record Request := mkRequest {
  PathValue_id : string;
  Body : json.Body
}.

End http.

(* ===================================================================== *)
(** ** internal/http/handlers/student

    A handler takes the request and the state of the storage behind the
    interface, and returns what it wrote with the state it leaves.  The
    [slog] calls are left out. *)

Module student.
Import storage response.

Section Handlers.
Context {S : Type} `{!Storage S}.

Definition New (r : http.Request) (st : S) : written * S :=
  let '(student, err) := json.Decode (http.Body r) types.zero in
  match err with
  | Some e =>
      if errors.Is e EOF
      then (WriteJSON http.StatusBadRequest
              (of_Response (GeneralError (errors.New "request body is empty"))), st)
      else (WriteJSON http.StatusBadRequest (of_Response (GeneralError e)), st)
  | None =>
      match validator.Struct student with
      | Some validateErrs =>
          (WriteJSON http.StatusBadRequest
             (of_Response (ValidationError validateErrs)), st)
      | None =>
          match CreateStudent (types.Name student) (types.Email student)
                              (types.Age student) st with
          | ((_, Some err), st1) =>
              (WriteJSON http.StatusInternalServerError
                 (of_Response (GeneralError err)), st1)
          | ((lastID, None), st1) =>
              (WriteJSON http.StatusCreated (of_id lastID), st1)
          end
      end
  end.

Definition GetByID (r : http.Request) (st : S) : written * S :=
  let id := http.PathValue_id r in
  match strconv.ParseInt id with
  | (_, Some _) =>
      (WriteJSON http.StatusBadRequest
         (of_Response (GeneralError (errors.New "invalid id: must be an integer"))), st)
  | (intID, None) =>
      match GetStudentByID intID st with
      | ((_, Some err), st1) =>
          (WriteJSON http.StatusInternalServerError
             (of_Response (GeneralError err)), st1)
      | ((student, None), st1) =>
          (WriteJSON http.StatusOK (of_Student student), st1)
      end
  end.

Definition GetList (r : http.Request) (st : S) : written * S :=
  match GetStudents st with
  | ((_, Some err), st1) =>
      (WriteJSON http.StatusInternalServerError
         (of_Response (GeneralError err)), st1)
  | ((students, None), st1) =>
      (WriteJSON http.StatusOK (of_Students students), st1)
  end.

Definition Update (r : http.Request) (st : S) : written * S :=
  let id := http.PathValue_id r in
  match strconv.ParseInt id with
  | (_, Some _) =>
      (WriteJSON http.StatusBadRequest
         (of_Response (GeneralError (errors.New "invalid id: must be an integer"))), st)
  | (intID, None) =>
      let '(student, err) := json.Decode (http.Body r) types.zero in
      match err with
      | Some e =>
          if errors.Is e EOF
          then (WriteJSON http.StatusBadRequest
                  (of_Response (GeneralError (errors.New "request body is empty"))), st)
          else (WriteJSON http.StatusBadRequest (of_Response (GeneralError e)), st)
      | None =>
          match validator.Struct student with
          | Some validateErrs =>
              (WriteJSON http.StatusBadRequest
                 (of_Response (ValidationError validateErrs)), st)
          | None =>
              match UpdateStudentByID intID student st with
              | ((_, Some err), st1) =>
                  (WriteJSON http.StatusInternalServerError
                     (of_Response (GeneralError err)), st1)
              | ((updated, None), st1) =>
                  (WriteJSON http.StatusOK (of_Student updated), st1)
              end
          end
      end
  end.

Definition Delete (r : http.Request) (st : S) : written * S :=
  let id := http.PathValue_id r in
  match strconv.ParseInt id with
  | (_, Some _) =>
      (WriteJSON http.StatusBadRequest
         (of_Response (GeneralError (errors.New "invalid id: must be an integer"))), st)
  | (intID, None) =>
      match DeleteStudentByID intID st with
      | (Some err, st1) =>
          (WriteJSON http.StatusInternalServerError
             (of_Response (GeneralError err)), st1)
      | (None, st1) =>
          (WriteJSON http.StatusOK (of_status "deleted"), st1)
      end
  end.

End Handlers.

End student.

(* ===================================================================== *)
(** ** internal/config *)

Module config.

(** [type HTTPServer struct { Addr string }] *)
Record HTTPServer := mkHTTPServer { Addr : string }.

(** [type Config struct { Env, StoragePath string; HTTPServer }] *)
Record Config := mkConfig {
  Env : string;
  StoragePath : string;
  HTTPServer_ : HTTPServer
}.

(** The zero value [Config{}] that [ReadConfig] is given to fill. *)
Definition zero : Config := mkConfig "" "" (mkHTTPServer "").

(** What [MustLoad] consults outside the program. *)
Record Process := mkProcess {
  (** [os.Getenv(key)], the empty string for a variable that is not set *)
  Getenv : string → string;
  (** [flag.Parse()] with the flag [config] registered: the value of the
      flag (its default, the empty string, when it is not given), or the
      status with which [flag.Parse] ends the process on a command line
      it rejects *)
  flag_Parse : string + Z;
  (** [os.IsNotExist(err)] for the error of [os.Stat(path)] *)
  Stat_IsNotExist : string → bool;
  (** [cleanenv.ReadConfig(path, &cfg)]: the filled struct and the error *)
  ReadConfig : string → Config → Config * option error
}.

(** How a call of [MustLoad] ends: it returns, or [log.Fatal] prints a
    message and ends the process with status 1, or [flag.Parse] ends
    it. *)
Inductive outcome :=
| Returns (cfg : Config)
| Fatal (msg : string)
| Exits (status : Z).

Definition MustLoad (p : Process) : outcome :=
  let configPath := Getenv p "CONFIG_PATH" in
  let parsed :=
    if decide (configPath = "") then flag_Parse p else inl configPath in
  match parsed with
  | inr status => Exits status
  | inl configPath =>
      if decide (configPath = "")
      then Fatal "config path is not set: use --config flag or CONFIG_PATH env var"
      else if Stat_IsNotExist p configPath
      then Fatal ("config file does not exist: " +:+ configPath)
      else
        match ReadConfig p configPath zero with
        | (_, Some err) => Fatal ("cannot read config: " +:+ errors.Error err)
        | (cfg, None) => Returns cfg
        end
  end.

End config.

(* ===================================================================== *)
(** ** Sequences of storage operations *)

Module scenario.
Import sql.

(** One call of a method of [*SQLite]. *)
Inductive op :=
| Create (name email : string) (age : Z)
| Get (id : Z)
| List
| Update (id : Z) (student : types.Student)
| Delete (id : Z).

(** One operation on the store; [ids] collects, latest first, the ids
    that [CreateStudent] has returned with a nil error. *)
Definition step (o : op) (st : DB * list Z) : DB * list Z :=
  let '(s, ids) := st in
  match o with
  | Create name email age =>
      match sqlite.CreateStudent name email age s with
      | ((id, None), s') => (s', id :: ids)
      | ((_, Some _), s') => (s', ids)
      end
  | Get id => ((sqlite.GetStudentByID id s).2, ids)
  | List => ((sqlite.GetStudents s).2, ids)
  | Update id student => ((sqlite.UpdateStudentByID id student s).2, ids)
  | Delete id => ((sqlite.DeleteStudentByID id s).2, ids)
  end.

(** The operations of [ops], first to last. *)
Definition run (ops : list op) (st : DB * list Z) : DB * list Z :=
  foldl (λ st o, step o st) st ops.

(** Every id handed out so far is at most the recorded sequence. *)
Definition ids_below_sequence (st : DB * list Z) : Prop :=
  Forall (λ j, (j <= sqlite_sequence st.1)%Z) st.2.

(** Every row of the table sits under an id that was handed out. *)
Definition rows_were_created (st : DB * list Z) : Prop :=
  ∀ k, is_Some (students st.1 !! k) → k ∈ st.2.

(** The id was handed out at some time and has no row now. *)
Definition used_and_absent (id : Z) (st : DB * list Z) : Prop :=
  students st.1 !! id = None ∧ (id <= sqlite_sequence st.1)%Z.

End scenario.

(* ===================================================================== *)
(** ** A storage that records the calls made on it *)

Module spy.
Import storage.

Inductive call :=
| CreateStudent_called (name email : string) (age : Z)
| GetStudentByID_called (id : Z)
| GetStudents_called
| UpdateStudentByID_called (id : Z) (student : types.Student)
| DeleteStudentByID_called (id : Z).

(** Runs a method of the storage underneath and adds the call to the
    log. *)
Definition logged {S A} (c : call) (m : S → A * S) (st : list call * S)
  : A * (list call * S) :=
  let '(a, s') := m st.2 in (a, (st.1 ++ [c], s'))%list.

#[global] Instance Spy_Storage {S} `{!Storage S} : Storage (list call * S) := {|
  CreateStudent name email age :=
    logged (CreateStudent_called name email age) (CreateStudent name email age);
  GetStudentByID id := logged (GetStudentByID_called id) (GetStudentByID id);
  GetStudents := logged GetStudents_called GetStudents;
  UpdateStudentByID id student :=
    logged (UpdateStudentByID_called id student) (UpdateStudentByID id student);
  DeleteStudentByID id := logged (DeleteStudentByID_called id) (DeleteStudentByID id)
|}.

End spy.

(* ===================================================================== *)
(** ** Abbreviations of the statements *)

(** The error of [GetStudentByID] for an id without a row. *)
Definition not_found (id : Z) : error := Errorf_d "no student found with id: " id.

(** The columns an insert or an update writes for a student. *)
Definition row_of (student : types.Student) : sql.Row :=
  sql.mkRow (types.Name student) (types.Email student) (types.Age student).

(** The student a select reads from the row under [id]. *)
Definition student_of (id : Z) (r : sql.Row) : types.Student :=
  types.mkStudent id (sql.name r) (sql.email r) (sql.age r).

(** The body of every error answer. *)
Definition envelope (msg : string) : json.value :=
  response.Encode (response.of_Response (response.mkResponse "error" msg)).

(** Two outcomes of the decoder that agree on all the handlers read
    after it: the error, and the name, email and age. *)
Definition same_fields (a b : types.Student * option error) : Prop :=
  types.Name a.1 = types.Name b.1 ∧ types.Email a.1 = types.Email b.1 ∧
  types.Age a.1 = types.Age b.1 ∧ a.2 = b.2.

(** The errors the decoder records for a member: fresh ones. *)
Definition type_error_or_nil (oe : option error) : Prop :=
  oe = None ∨ ∃ msg, oe = Some (errorString msg).

(** The ids [n], [n - 1], ..., [1], latest first. *)
Definition countdown (n : nat) : list Z := reverse (Z.of_nat <$> seq 1 n).

(** The ids handed out are 1, 2, 3, ... in this order, the sequence is
    the last of them, and every row sits under one of them. *)
Definition ids_are_consecutive (st : sql.DB * list Z) : Prop :=
  st.2 = countdown (List.length st.2) ∧
  sql.sqlite_sequence st.1 = Z.of_nat (List.length st.2) ∧
  ∀ k, is_Some (sql.students st.1 !! k) →
       (1 <= k <= sql.sqlite_sequence st.1)%Z.

(* ===================================================================== *)
(** * Properties *)

Local Open Scope Z_scope.

(** ** The scenario of the specification, run on the model *)

Section Scenario.
Import json http response.

Example post_then_get :
  let created :=
    student.New
      (mkRequest "" (Value (Object [("name", Str "Rakesh");
                                    ("email", Str "rakesh@test.com");
                                    ("age", Int 35)])))
      (sqlite.New []) in
  created.1 = mkWritten "application/json" 201 (Object [("id", Int 1)]) ∧
  (student.GetByID (mkRequest "1" Empty) created.2).1 =
    mkWritten "application/json" 200
      (Object [("id", Int 1); ("name", Str "Rakesh");
               ("email", Str "rakesh@test.com"); ("age", Int 35)]).
Proof. split; vm_compute; reflexivity. Qed.

Example put_then_delete_then_get :
  let created :=
    student.New
      (mkRequest "" (Value (Object [("name", Str "Rakesh");
                                    ("email", Str "rakesh@test.com");
                                    ("age", Int 35)])))
      (sqlite.New []) in
  let updated :=
    student.Update
      (mkRequest "1" (Value (Object [("name", Str "Rakesh Kumar");
                                     ("email", Str "new@test.com");
                                     ("age", Int 36)])))
      created.2 in
  let deleted := student.Delete (mkRequest "1" Empty) updated.2 in
  updated.1 =
    mkWritten "application/json" 200
      (Object [("id", Int 1); ("name", Str "Rakesh Kumar");
               ("email", Str "new@test.com"); ("age", Int 36)]) ∧
  deleted.1 = mkWritten "application/json" 200 (Object [("status", Str "deleted")]) ∧
  (student.GetByID (mkRequest "1" Empty) deleted.2).1 =
    mkWritten "application/json" 500 (envelope "no student found with id: 1").
Proof. split_and!; vm_compute; reflexivity. Qed.

Example empty_name_is_rejected :
  (student.New
     (mkRequest "" (Value (Object [("name", Str ""); ("email", Str "a@b.com");
                                   ("age", Int 10)])))
     (sqlite.New [])).1 =
  mkWritten "application/json" 400 (envelope "field Name is required").
Proof. vm_compute; reflexivity. Qed.

Example path_ids :
  strconv.ParseInt "42" = (42, None) ∧
  strconv.ParseInt "-7" = (-7, None) ∧
  strconv.ParseInt "+7" = (7, None) ∧
  (strconv.ParseInt "abc").2 = Some strconv.ErrSyntax ∧
  (strconv.ParseInt "").2 = Some strconv.ErrSyntax ∧
  (strconv.ParseInt "9223372036854775808").2 = Some strconv.ErrRange ∧
  strconv.ParseInt "-9223372036854775808" = (-9223372036854775808, None).
Proof. split_and!; vm_compute; reflexivity. Qed.

End Scenario.

(** ** The driver and the table *)

Section Driver.
Import sql.

Lemma DB_eta (s : DB) : mkDB (students s) (sqlite_sequence s) (faults s) = s.
Proof. by destruct s. Qed.

(** A driver call never touches the table or the sequence. *)
Lemma driver_frame s o s1 :
  driver s = (o, s1) →
  students s1 = students s ∧ sqlite_sequence s1 = sqlite_sequence s ∧
  faults s1 = tail (faults s).
Proof.
  unfold driver. destruct s as [t q [|f fs]]; simpl; intros [= <- <-]; done.
Qed.

(** A failure of the driver is a fresh error, never a sentinel. *)
Lemma driver_error s e s1 :
  driver s = (Some e, s1) → ∃ msg, e = errorString msg.
Proof.
  unfold driver. destruct (faults s) as [|[msg|] fs]; simpl; intros [=].
  subst. by exists msg.
Qed.

Lemma driver_healthy s : faults s = [] → driver s = (None, s).
Proof. unfold driver. by intros ->. Qed.

Lemma largest_rowid_fold (m : gmap Z Row) (b : Z) :
  b ≤ map_fold (λ k _ acc, Z.max k acc) b m ∧
  ∀ k, is_Some (m !! k) → k ≤ map_fold (λ k _ acc, Z.max k acc) b m.
Proof.
  apply (map_fold_weak_ind
           (λ top (m : gmap Z Row), b ≤ top ∧ ∀ k, is_Some (m !! k) → k ≤ top)).
  - split; [lia|]. intros k [x Hx]. by rewrite lookup_empty in Hx.
  - intros i x m' r _ [Hb Hk]. split; [lia|].
    intros k. destruct (decide (i = k)) as [->|Hne].
    + intros _. lia.
    + rewrite lookup_insert_ne by done. intros Hs. specialize (Hk k Hs). lia.
Qed.

Lemma largest_rowid_ge_sequence s : sqlite_sequence s ≤ largest_rowid s.
Proof. exact (proj1 (largest_rowid_fold (students s) (sqlite_sequence s))). Qed.

Lemma largest_rowid_ge_rowid s k : is_Some (students s !! k) → k ≤ largest_rowid s.
Proof. exact (proj2 (largest_rowid_fold (students s) (sqlite_sequence s)) k). Qed.

Lemma largest_rowid_frame s s1 :
  students s1 = students s → sqlite_sequence s1 = sqlite_sequence s →
  largest_rowid s1 = largest_rowid s.
Proof. unfold largest_rowid. by intros -> ->. Qed.

End Driver.

(** Splits the next driver call of the goal into its two outcomes. *)
Ltac driver_cases s :=
  let o := fresh "o" in
  let s1 := fresh "s" in
  let Hd := fresh "Hd" in
  destruct (sql.driver s) as [o s1] eqn:Hd;
  let Ht := fresh "Ht" in
  let Hq := fresh "Hq" in
  let Hf := fresh "Hf" in
  destruct (driver_frame _ _ _ Hd) as (Ht & Hq & Hf);
  destruct o.

(** ** The methods of the storage, outcome by outcome *)

Section Storage.
Import sql sqlite.

Lemma CreateStudent_ok name email age s id s' :
  CreateStudent name email age s = ((id, None), s') →
  id = largest_rowid s + 1 ∧
  students s' = <[id := mkRow name email age]> (students s) ∧
  sqlite_sequence s' = id.
Proof.
  unfold CreateStudent, Prepare, ExecInsert, LastInsertId.
  driver_cases s; [intros [=]|].
  driver_cases s0; [intros [=]|].
  rewrite (largest_rowid_frame s1 s) by congruence.
  case_decide; [intros [=]|]. simpl. intros [= <- <-]. simpl.
  by rewrite Ht0, Ht.
Qed.

Lemma CreateStudent_err name email age s id e s' :
  CreateStudent name email age s = ((id, Some e), s') →
  id = 0 ∧ students s' = students s ∧ sqlite_sequence s' = sqlite_sequence s.
Proof.
  unfold CreateStudent, Prepare, ExecInsert, LastInsertId.
  driver_cases s; [intros [= <- _ <-]; done|].
  driver_cases s0; [intros [= <- _ <-]; split_and!; congruence|].
  case_decide; simpl; [|intros [=]].
  intros [= <- _ <-]. split_and!; congruence.
Qed.

(** [GetStudentByID] never changes the table, and what it returns with
    a nil error is the row stored under the id. *)
Lemma GetStudentByID_frame id s r s' :
  GetStudentByID id s = (r, s') →
  students s' = students s ∧ sqlite_sequence s' = sqlite_sequence s.
Proof.
  unfold GetStudentByID, Prepare, QueryRowScan.
  driver_cases s; [intros [= _ <-]; done|].
  driver_cases s0.
  - case_decide; intros [= _ <-]; split; congruence.
  - destruct (students s1 !! id); simpl; intros [= _ <-]; split; congruence.
Qed.

Lemma GetStudentByID_ok id s student s' :
  GetStudentByID id s = ((student, None), s') →
  ∃ r, students s !! id = Some r ∧ student = student_of id r.
Proof.
  unfold GetStudentByID, Prepare, QueryRowScan.
  driver_cases s; [intros [=]|].
  driver_cases s0; [case_decide; intros [=]|].
  rewrite Ht0, Ht. destruct (students s !! id) as [r|]; simpl; [|intros [=]].
  intros [= <- _]. by exists r.
Qed.

Lemma GetStudentByID_healthy id s :
  faults s = [] →
  GetStudentByID id s =
    (match students s !! id with
     | Some r => (student_of id r, None)
     | None => (types.zero, Some (not_found id))
     end, s).
Proof.
  intros Hf. unfold GetStudentByID, Prepare, QueryRowScan.
  rewrite !(driver_healthy s Hf). by destruct (students s !! id).
Qed.

Lemma ExecUpdate_healthy student id s :
  faults s = [] →
  ExecUpdate (types.Name student) (types.Email student) (types.Age student) id s =
    (None, mkDB (alter (λ _, row_of student) id (students s))
                (sqlite_sequence s) []).
Proof.
  intros Hf. unfold ExecUpdate. rewrite (driver_healthy s Hf). by rewrite Hf.
Qed.

(** The [UPDATE] on an id without a row rewrites nothing. *)
Lemma alter_absent (m : gmap Z Row) f id : m !! id = None → alter f id m = m.
Proof.
  intros Hm. apply map_eq. intros k. rewrite lookup_alter.
  case_decide; [subst; by rewrite Hm|done].
Qed.

Lemma alter_present (m : gmap Z Row) r0 r id :
  m !! id = Some r0 → alter (λ _, r) id m = <[id := r]> m.
Proof.
  intros Hm. apply map_eq. intros k. rewrite lookup_alter, lookup_insert.
  case_decide; [subst; by rewrite Hm|done].
Qed.

(** [UpdateStudentByID] with a nil error: the statement ran, and the
    result is the row read back. *)
Lemma UpdateStudentByID_ok id student s updated s' :
  UpdateStudentByID id student s = ((updated, None), s') →
  students s' = alter (λ _, row_of student) id (students s) ∧
  sqlite_sequence s' = sqlite_sequence s ∧
  ∃ s2, students s2 = students s' ∧
        GetStudentByID id s2 = ((updated, None), s').
Proof.
  unfold UpdateStudentByID, Prepare, ExecUpdate.
  driver_cases s; [intros [=]|].
  driver_cases s0; [intros [=]|].
  intros Hget. destruct (GetStudentByID_frame _ _ _ _ Hget) as [Ht' Hq'].
  simpl in Ht', Hq'. rewrite Ht', Hq', Ht0, Ht, Hq0, Hq. split_and!; [done..|].
  eexists. split; [|exact Hget]. simpl. by rewrite Ht0, Ht.
Qed.

(** Whatever the driver does, [UpdateStudentByID] leaves the table as
    the [UPDATE] statement left it, or untouched. *)
Lemma UpdateStudentByID_frame id student s r s' :
  UpdateStudentByID id student s = (r, s') →
  sqlite_sequence s' = sqlite_sequence s ∧
  (students s' = students s ∨
   students s' = alter (λ _, row_of student) id (students s)).
Proof.
  unfold UpdateStudentByID, Prepare, ExecUpdate.
  driver_cases s; [intros [= _ <-]; auto|].
  driver_cases s0; [intros [= _ <-]; split; [congruence|left; congruence]|].
  intros Hget. destruct (GetStudentByID_frame _ _ _ _ Hget) as [Ht' Hq'].
  simpl in Ht', Hq'. rewrite Ht', Hq', Ht0, Ht, Hq0, Hq. auto.
Qed.

Lemma UpdateStudentByID_result id student s updated s' :
  UpdateStudentByID id student s = ((updated, None), s') →
  updated = types.mkStudent id (types.Name student) (types.Email student)
                            (types.Age student).
Proof.
  intros Hu. apply UpdateStudentByID_ok in Hu as (Ht & _ & s2 & Ht2 & Hget).
  apply GetStudentByID_ok in Hget as (r & Hr & ->).
  rewrite Ht2, Ht, lookup_alter in Hr. case_decide; [|done].
  destruct (students s !! id); simpl in Hr; [|done].
  by injection Hr as <-.
Qed.

Lemma UpdateStudentByID_healthy id student s :
  faults s = [] →
  sqlite.UpdateStudentByID id student s =
    (match students s !! id with
     | Some _ =>
         (types.mkStudent id (types.Name student) (types.Email student)
                          (types.Age student), None)
     | None => (types.zero, Some (not_found id))
     end,
     mkDB (alter (λ _, row_of student) id (students s)) (sqlite_sequence s) []).
Proof.
  intros Hf. unfold UpdateStudentByID, Prepare.
  rewrite (driver_healthy s Hf), (ExecUpdate_healthy student id s Hf).
  rewrite GetStudentByID_healthy by done. simpl.
  rewrite lookup_alter. case_decide; [|done].
  by destruct (students s !! id).
Qed.

Lemma DeleteStudentByID_frame id s r s' :
  DeleteStudentByID id s = (r, s') →
  sqlite_sequence s' = sqlite_sequence s ∧
  (students s' = students s ∨ students s' = delete id (students s)).
Proof.
  unfold DeleteStudentByID, Prepare, ExecDelete.
  driver_cases s; [intros [= _ <-]; auto|].
  driver_cases s0; intros [= _ <-]; simpl.
  - split; [congruence|left; congruence].
  - rewrite Ht0, Ht, Hq0, Hq. auto.
Qed.

Lemma DeleteStudentByID_ok id s s' :
  DeleteStudentByID id s = (None, s') →
  students s' = delete id (students s) ∧
  sqlite_sequence s' = sqlite_sequence s.
Proof.
  unfold DeleteStudentByID, Prepare, ExecDelete.
  driver_cases s; [intros [=]|].
  driver_cases s0; [intros [=]|].
  intros [= <-]. simpl. by rewrite Ht0, Ht, Hq0, Hq.
Qed.

Lemma DeleteStudentByID_err id s e s' :
  DeleteStudentByID id s = (Some e, s') →
  students s' = students s ∧ sqlite_sequence s' = sqlite_sequence s.
Proof.
  unfold DeleteStudentByID, Prepare, ExecDelete.
  driver_cases s; [intros [= _ <-]; done|].
  driver_cases s0; [|intros [=]].
  intros [= _ <-]. split; congruence.
Qed.

(** An [UpdateStudentByID] with a nil error found a row under the id. *)
Lemma UpdateStudentByID_row id student s updated s' :
  UpdateStudentByID id student s = ((updated, None), s') →
  is_Some (students s !! id).
Proof.
  intros Hu. apply UpdateStudentByID_ok in Hu as (Ht & _ & s2 & Ht2 & Hget).
  apply GetStudentByID_ok in Hget as (r & Hr & _).
  rewrite Ht2, Ht, lookup_alter in Hr. case_decide; [|done].
  destruct (students s !! id); [by eexists|done].
Qed.

Lemma DeleteStudentByID_healthy id s :
  faults s = [] →
  DeleteStudentByID id s =
    (None, mkDB (delete id (students s)) (sqlite_sequence s) []).
Proof.
  intros Hf. unfold DeleteStudentByID, Prepare, ExecDelete.
  rewrite !(driver_healthy s Hf). by rewrite Hf.
Qed.

End Storage.

Section StorageList.
Import sql sqlite.

Lemma scan_rows_frame rows acc s r s' :
  scan_rows rows acc s = (r, s') →
  students s' = students s ∧ sqlite_sequence s' = sqlite_sequence s.
Proof.
  revert acc s. induction rows as [|row rows IH]; intros acc s; simpl.
  - by intros [= _ <-].
  - unfold RowsScan. driver_cases s.
    + intros [= _ <-]. done.
    + intros Hrest. apply IH in Hrest as [-> ->]. done.
Qed.

Lemma scan_rows_healthy rows acc s :
  faults s = [] →
  scan_rows rows (slice_of acc) s =
    ((slice_of (acc ++ ((λ r, student_of r.1 r.2) <$> rows))%list, None), s).
Proof.
  intros Hf. revert acc. induction rows as [|row rows IH]; intros acc; simpl.
  - by rewrite app_nil_r.
  - unfold RowsScan. rewrite (driver_healthy s Hf). simpl.
    rewrite IH. by rewrite <- app_assoc.
Qed.

(** With a nil error the slice of [scan_rows] is not nil when the one it
    started from was not. *)
Lemma scan_rows_not_nil rows acc s sl s' :
  scan_rows rows (slice_of acc) s = ((sl, None), s') → ∃ l, sl = slice_of l.
Proof.
  revert acc s. induction rows as [|row rows IH]; intros acc s; simpl.
  - intros [= <- _]. by eexists.
  - destruct (RowsScan row s) as [[st [e|]] s1]; [intros [=]|].
    simpl. apply IH.
Qed.

Lemma GetStudents_frame s r s' :
  GetStudents s = (r, s') →
  students s' = students s ∧ sqlite_sequence s' = sqlite_sequence s.
Proof.
  unfold GetStudents, Prepare, Query, RowsErr.
  driver_cases s; [intros [= _ <-]; done|].
  driver_cases s0; [intros [= _ <-]; split; congruence|].
  destruct (scan_rows _ _ s1) as [[sl oe] s3] eqn:Hscan.
  apply scan_rows_frame in Hscan as [Ht3 Hq3].
  destruct oe; [intros [= _ <-]; split; congruence|].
  driver_cases s3; intros [= _ <-]; split; congruence.
Qed.

Lemma GetStudents_healthy s :
  faults s = [] →
  GetStudents s =
    ((slice_of ((λ r, student_of r.1 r.2) <$> map_to_list (students s)), None), s).
Proof.
  intros Hf. unfold GetStudents, Prepare, Query, RowsErr.
  rewrite !(driver_healthy s Hf). rewrite (scan_rows_healthy _ [] s Hf).
  by rewrite (driver_healthy s Hf).
Qed.

Lemma GetStudents_not_nil s sl s' :
  GetStudents s = ((sl, None), s') → ∃ l, sl = slice_of l.
Proof.
  unfold GetStudents, Prepare, Query, RowsErr.
  driver_cases s; [intros [=]|].
  driver_cases s0; [intros [=]|].
  destruct (scan_rows _ _ s1) as [[sl' oe] s3] eqn:Hscan.
  destruct oe; [intros [=]|].
  apply scan_rows_not_nil in Hscan.
  driver_cases s3; intros [= <- _]; done.
Qed.

End StorageList.

(** ** Runs of operations *)

Section Runs.
Import sql sqlite scenario.

Lemma step_ids_below_sequence o st :
  ids_below_sequence st → ids_below_sequence (step o st).
Proof.
  destruct st as [s ids]. unfold ids_below_sequence, step. simpl. intros Hids.
  destruct o as [name email age|id| |id student|id].
  - destruct (CreateStudent name email age s) as [[id [e|]] s'] eqn:Hc; simpl.
    + apply CreateStudent_err in Hc as (_ & _ & ->). done.
    + apply CreateStudent_ok in Hc as (-> & _ & ->).
      pose proof (largest_rowid_ge_sequence s).
      constructor; [lia|].
      eapply Forall_impl; [exact Hids|]. simpl. intros; lia.
  - destruct (GetStudentByID id s) as [r s'] eqn:Hg. simpl.
    apply GetStudentByID_frame in Hg as [_ ->]. done.
  - destruct (GetStudents s) as [r s'] eqn:Hg. simpl.
    apply GetStudents_frame in Hg as [_ ->]. done.
  - destruct (UpdateStudentByID id student s) as [r s'] eqn:Hu. simpl.
    apply UpdateStudentByID_frame in Hu as [-> _]. done.
  - destruct (DeleteStudentByID id s) as [r s'] eqn:Hd. simpl.
    apply DeleteStudentByID_frame in Hd as [-> _]. done.
Qed.

Lemma run_ids_below_sequence ops st :
  ids_below_sequence st → ids_below_sequence (run ops st).
Proof.
  unfold run. revert st. induction ops as [|o ops IH]; intros st Hst; simpl.
  - done.
  - apply IH. by apply step_ids_below_sequence.
Qed.

Lemma alter_is_Some (m : gmap Z Row) f id k :
  is_Some (alter f id m !! k) → is_Some (m !! k).
Proof.
  rewrite lookup_alter. case_decide; [subst|done].
  destruct (m !! k); simpl; [by eexists|by intros [? ?]].
Qed.

Lemma delete_is_Some (m : gmap Z Row) id k :
  is_Some (delete id m !! k) → is_Some (m !! k).
Proof.
  rewrite lookup_delete. case_decide; [by intros [? ?]|done].
Qed.

Lemma step_rows_were_created o st :
  rows_were_created st → rows_were_created (step o st).
Proof.
  destruct st as [s ids]. unfold rows_were_created, step. simpl. intros Hrows.
  destruct o as [name email age|id| |id student|id].
  - destruct (CreateStudent name email age s) as [[id [e|]] s'] eqn:Hc; simpl.
    + apply CreateStudent_err in Hc as (_ & -> & _). done.
    + apply CreateStudent_ok in Hc as (_ & -> & _). intros k.
      destruct (decide (id = k)) as [->|Hne]; [intros _; left|].
      rewrite lookup_insert_ne by done. intros Hk. right. by apply Hrows.
  - destruct (GetStudentByID id s) as [r s'] eqn:Hg. simpl.
    apply GetStudentByID_frame in Hg as [-> _]. done.
  - destruct (GetStudents s) as [r s'] eqn:Hg. simpl.
    apply GetStudents_frame in Hg as [-> _]. done.
  - destruct (UpdateStudentByID id student s) as [r s'] eqn:Hu. simpl.
    apply UpdateStudentByID_frame in Hu as [_ [->| ->]]; [done|].
    intros k Hk. apply Hrows. by eapply alter_is_Some.
  - destruct (DeleteStudentByID id s) as [r s'] eqn:Hd. simpl.
    apply DeleteStudentByID_frame in Hd as [_ [->| ->]]; [done|].
    intros k Hk. apply Hrows. by eapply delete_is_Some.
Qed.

Lemma run_rows_were_created ops st :
  rows_were_created st → rows_were_created (run ops st).
Proof.
  unfold run. revert st. induction ops as [|o ops IH]; intros st Hst; simpl.
  - done.
  - apply IH. by apply step_rows_were_created.
Qed.

(** An id that was handed out and has lost its row never gets one
    again: new rows go above the sequence. *)
Lemma step_used_and_absent id o st :
  used_and_absent id st → used_and_absent id (step o st).
Proof.
  destruct st as [s ids]. unfold used_and_absent, step. simpl.
  intros [Hnone Hle].
  destruct o as [name email age|id'| |id' student|id'].
  - destruct (CreateStudent name email age s) as [[id1 [e|]] s'] eqn:Hc; simpl.
    + apply CreateStudent_err in Hc as (_ & -> & ->). done.
    + apply CreateStudent_ok in Hc as (-> & -> & ->).
      pose proof (largest_rowid_ge_sequence s).
      split; [|lia]. rewrite lookup_insert_ne by lia. done.
  - destruct (GetStudentByID id' s) as [r s'] eqn:Hg. simpl.
    apply GetStudentByID_frame in Hg as [-> ->]. done.
  - destruct (GetStudents s) as [r s'] eqn:Hg. simpl.
    apply GetStudents_frame in Hg as [-> ->]. done.
  - destruct (UpdateStudentByID id' student s) as [r s'] eqn:Hu. simpl.
    apply UpdateStudentByID_frame in Hu as [-> [->| ->]]; [done|].
    split; [|done].
    destruct (alter _ id' (students s) !! id) eqn:Ha; [|done].
    destruct (alter_is_Some _ _ _ _ (mk_is_Some _ _ Ha)) as [? ?]. congruence.
  - destruct (DeleteStudentByID id' s) as [r s'] eqn:Hd. simpl.
    apply DeleteStudentByID_frame in Hd as [-> [->| ->]]; [done|].
    split; [|done].
    destruct (delete id' (students s) !! id) eqn:Ha; [|done].
    destruct (delete_is_Some _ _ _ (mk_is_Some _ _ Ha)) as [? ?]. congruence.
Qed.

Lemma run_used_and_absent id ops st :
  used_and_absent id st → used_and_absent id (run ops st).
Proof.
  unfold run. revert st. induction ops as [|o ops IH]; intros st Hst; simpl.
  - done.
  - apply IH. by apply step_used_and_absent.
Qed.

End Runs.

(** ** The handlers, branch by branch *)

Section HandlerBranches.
Import response.
Context {S : Type} `{!storage.Storage S}.

Lemma Struct_None student :
  validator.Struct student = None ↔
  types.Name student ≠ "" ∧ types.Email student ≠ "" ∧ types.Age student ≠ 0.
Proof.
  unfold validator.Struct, validator.field_errors,
    validator.required_string, validator.required_int.
  repeat case_decide; simpl; split; try done; intros (? & ? & ?); done.
Qed.

Lemma Struct_only_age student :
  types.Name student ≠ "" → types.Email student ≠ "" → types.Age student = 0 →
  validator.Struct student = Some [validator.mkFieldError "Age" "required"].
Proof.
  intros Hn He Ha.
  unfold validator.Struct, validator.field_errors,
    validator.required_string, validator.required_int.
  repeat case_decide; done.
Qed.

(** [New] once the body has been decoded without an error. *)
Lemma New_decoded r student (st : S) :
  json.Decode (http.Body r) types.zero = (student, None) →
  student.New r st =
    match validator.Struct student with
    | Some validateErrs =>
        (WriteJSON 400 (of_Response (ValidationError validateErrs)), st)
    | None =>
        match storage.CreateStudent (types.Name student) (types.Email student)
                                    (types.Age student) st with
        | ((_, Some err), st1) =>
            (WriteJSON 500 (of_Response (GeneralError err)), st1)
        | ((lastID, None), st1) => (WriteJSON 201 (of_id lastID), st1)
        end
    end.
Proof. unfold student.New. by intros ->. Qed.

(** [Update] once the id has been parsed and the body decoded. *)
Lemma Update_decoded r intID student (st : S) :
  strconv.ParseInt (http.PathValue_id r) = (intID, None) →
  json.Decode (http.Body r) types.zero = (student, None) →
  student.Update r st =
    match validator.Struct student with
    | Some validateErrs =>
        (WriteJSON 400 (of_Response (ValidationError validateErrs)), st)
    | None =>
        match storage.UpdateStudentByID intID student st with
        | ((_, Some err), st1) =>
            (WriteJSON 500 (of_Response (GeneralError err)), st1)
        | ((updated, None), st1) => (WriteJSON 200 (of_Student updated), st1)
        end
    end.
Proof. unfold student.Update. by intros -> ->. Qed.

Lemma GetByID_parsed r intID (st : S) :
  strconv.ParseInt (http.PathValue_id r) = (intID, None) →
  student.GetByID r st =
    match storage.GetStudentByID intID st with
    | ((_, Some err), st1) =>
        (WriteJSON 500 (of_Response (GeneralError err)), st1)
    | ((student, None), st1) => (WriteJSON 200 (of_Student student), st1)
    end.
Proof. unfold student.GetByID. by intros ->. Qed.

(** The answers of [New] and of [Update]: a result under a success
    status, or the error envelope under 400 or 500; and under 400 the
    state of the storage is the one the handler was given. *)
Lemma New_answers r (st : S) w st' :
  student.New r st = (w, st') →
  (StatusCode w = 400 → st' = st) ∧
  ((StatusCode w = 201 ∧ ∃ lastID, Body w = Encode (of_id lastID)) ∨
   ((StatusCode w = 400 ∨ StatusCode w = 500) ∧ ∃ msg, Body w = envelope msg)).
Proof.
  unfold student.New.
  destruct (json.Decode (http.Body r) types.zero) as [student [e|]].
  - destruct (errors.Is e EOF); intros [= <- <-]; simpl;
      (split; [done|right; split; [by left|by eexists]]).
  - destruct (validator.Struct student) as [errs|].
    + intros [= <- <-]; simpl. split; [done|right; split; [by left|by eexists]].
    + destruct (storage.CreateStudent _ _ _ st) as [[lastID [e|]] st1];
        intros [= <- <-]; simpl.
      * split; [done|right; split; [by right|by eexists]].
      * split; [done|left; split; [done|by eexists]].
Qed.

Lemma Update_answers r (st : S) w st' :
  student.Update r st = (w, st') →
  (StatusCode w = 400 → st' = st) ∧
  ((StatusCode w = 200 ∧ ∃ updated, Body w = Encode (of_Student updated)) ∨
   ((StatusCode w = 400 ∨ StatusCode w = 500) ∧ ∃ msg, Body w = envelope msg)).
Proof.
  unfold student.Update.
  destruct (strconv.ParseInt (http.PathValue_id r)) as [intID [e|]].
  { intros [= <- <-]; simpl. split; [done|right; split; [by left|by eexists]]. }
  destruct (json.Decode (http.Body r) types.zero) as [student [e|]].
  - destruct (errors.Is e EOF); intros [= <- <-]; simpl;
      (split; [done|right; split; [by left|by eexists]]).
  - destruct (validator.Struct student) as [errs|].
    + intros [= <- <-]; simpl. split; [done|right; split; [by left|by eexists]].
    + destruct (storage.UpdateStudentByID _ _ st) as [[updated [e|]] st1];
        intros [= <- <-]; simpl.
      * split; [done|right; split; [by right|by eexists]].
      * split; [done|left; split; [done|by eexists]].
Qed.

(** [New] reads of the decoded body the error, the name, the email and
    the age, nothing else. *)
Lemma New_same_fields r1 r2 (st : S) :
  same_fields (json.Decode (http.Body r1) types.zero)
              (json.Decode (http.Body r2) types.zero) →
  student.New r1 st = student.New r2 st.
Proof.
  unfold student.New.
  destruct (json.Decode (http.Body r1) types.zero) as [[i1 n1 e1 a1] o1].
  destruct (json.Decode (http.Body r2) types.zero) as [[i2 n2 e2 a2] o2].
  unfold same_fields. simpl. intros (-> & -> & -> & ->). done.
Qed.

End HandlerBranches.

(** ** The decoder *)

Section Decoder.

Lemma object_app before after st :
  json.object (before ++ after)%list st = json.object after (json.object before st).
Proof.
  revert st. induction before as [|[key v] before IH]; intros st; simpl.
  - done.
  - destruct (json.find_field key); apply IH.
Qed.

Lemma set_field_same_fields f v a b :
  same_fields a b → same_fields (json.set_field f v a) (json.set_field f v b).
Proof.
  destruct a as [[ia na ea aa] oa], b as [[ib nb eb ab] ob].
  unfold same_fields. simpl. intros (-> & -> & -> & ->).
  destruct f, v; simpl; repeat case_decide; simpl; done.
Qed.

Lemma object_same_fields members a b :
  same_fields a b → same_fields (json.object members a) (json.object members b).
Proof.
  revert a b. induction members as [|[key v] members IH]; intros a b Hab; simpl.
  - done.
  - destruct (json.find_field key); apply IH; [|done].
    by apply set_field_same_fields.
Qed.

(** An integer that fits [int], or [null], under the key of [ID]
    changes the [ID] at most. *)
Lemma set_field_ID_fits v a :
  v = json.Null ∨ (∃ z, v = json.Int z ∧ - 2 ^ 63 ≤ z < 2 ^ 63) →
  same_fields (json.set_field json.fID v a) a.
Proof.
  destruct a as [sa oa]. intros [->|(z & -> & Hz)]; simpl.
  - done.
  - case_decide; done.
Qed.

(** Any other value under the key of [ID] is recorded as an error. *)
Lemma set_field_ID_misfit v s saved :
  v ≠ json.Null → (∀ z, v = json.Int z → ¬ (- 2 ^ 63 ≤ z < 2 ^ 63)) →
  json.set_field json.fID v (s, saved) =
    (s, json.saveError saved (json.UnmarshalTypeError v json.fID)).
Proof.
  intros Hnull Hint. destruct v; simpl; try done.
  case_decide; [|done]. by destruct (Hint z).
Qed.

Lemma set_field_error f v s e :
  ∃ s', json.set_field f v (s, Some e) = (s', Some e).
Proof.
  destruct f, v; simpl; repeat case_decide; by eexists.
Qed.

(** Once an error is recorded the decoder returns it. *)
Lemma object_error members s e :
  ∃ s', json.object members (s, Some e) = (s', Some e).
Proof.
  revert s. induction members as [|[key v] members IH]; intros s;
    cbn [json.object].
  - by eexists.
  - destruct (json.find_field key) as [f|]; [|apply IH].
    destruct (set_field_error f v s e) as [s1 ->]. apply IH.
Qed.

Lemma set_field_type_error f v st :
  type_error_or_nil st.2 → type_error_or_nil (json.set_field f v st).2.
Proof.
  destruct st as [s oe]. unfold type_error_or_nil. simpl.
  intros [->|[msg ->]];
    destruct f, v; simpl; repeat case_decide; simpl;
    try (by left); right; by eexists.
Qed.

Lemma object_type_error members st :
  type_error_or_nil st.2 → type_error_or_nil (json.object members st).2.
Proof.
  revert st. induction members as [|[key v] members IH]; intros st Hst; simpl.
  - done.
  - destruct (json.find_field key); apply IH; [|done].
    by apply set_field_type_error.
Qed.

End Decoder.

(** ** The claims *)

Section Claims.
Import sql.

(** C1.  After any sequence of storage operations on a store that
    started empty (whatever failures the driver reported on the way),
    a [CreateStudent] that returns a nil error returns an id that is
    strictly greater than every id [CreateStudent] returned before and
    that no row of the table carries; a [GetStudentByID] with that id
    right after it cannot return another record than the id with the
    name, email and age given to [CreateStudent], and does return it
    when the driver reports no failure.  The fields need not even be
    valid for this. *)
Theorem create_returns_fresh_increasing_id
    (fs : list (option string)) (ops : list scenario.op)
    (name email : string) (age : Z)
    (s : DB) (ids : list Z) (id : Z) (s' : DB) :
  scenario.run ops (sqlite.New fs, []) = (s, ids) →
  sqlite.CreateStudent name email age s = ((id, None), s') →
  Forall (λ j, j < id) ids ∧
  students s !! id = None ∧
  (∀ got s'', sqlite.GetStudentByID id s' = ((got, None), s'') →
     got = types.mkStudent id name email age) ∧
  (faults s' = [] →
     sqlite.GetStudentByID id s' =
       ((types.mkStudent id name email age, None), s')).
Proof.
  intros Hrun Hcreate.
  assert (Hinv : scenario.ids_below_sequence (s, ids)).
  { rewrite <- Hrun. apply run_ids_below_sequence. constructor. }
  apply CreateStudent_ok in Hcreate as (Hid & Ht & Hq).
  pose proof (largest_rowid_ge_sequence s) as Hseq.
  assert (Hrow : students s' !! id = Some (mkRow name email age))
    by (rewrite Ht; apply lookup_insert_eq).
  split_and!.
  - eapply Forall_impl; [exact Hinv|]. simpl. intros j Hj. lia.
  - destruct (students s !! id) as [r|] eqn:Hr; [|done].
    pose proof (largest_rowid_ge_rowid s id (mk_is_Some _ _ Hr)). lia.
  - intros got s'' Hget.
    apply GetStudentByID_ok in Hget as (r & Hr & ->).
    rewrite Hrow in Hr. by injection Hr as <-.
  - intros Hf. rewrite (GetStudentByID_healthy id s' Hf), Hrow. done.
Qed.

Lemma create_returns_fresh_increasing_id_witness :
  let ops := [scenario.Create "Asha" "asha@test.com" 20;
              scenario.Create "Ravi" "ravi@test.com" 21;
              scenario.Delete 2] in
  let st := scenario.run ops (sqlite.New [], []) in
  let r := sqlite.CreateStudent "Mina" "mina@test.com" 22 st.1 in
  Forall (λ j, j < 3) [2; 1] ∧
  students st.1 !! 3 = None ∧
  (∀ got s'', sqlite.GetStudentByID 3 r.2 = ((got, None), s'') →
     got = types.mkStudent 3 "Mina" "mina@test.com" 22) ∧
  (faults r.2 = [] →
     sqlite.GetStudentByID 3 r.2 =
       ((types.mkStudent 3 "Mina" "mina@test.com" 22, None), r.2)).
Proof.
  intros ops st r.
  apply (create_returns_fresh_increasing_id [] ops "Mina" "mina@test.com" 22
           st.1 [2; 1] 3 r.2); vm_compute; reflexivity.
Defined.



(** C3.  For a row stored under [i], an update that returns a nil error
    leaves under [i] the name, email and age of its argument and nothing
    of the old row, returns them with the id [i], and leaves the row of
    every other id as it was; a [GetStudentByID i] after it cannot
    return anything else than the updated record, and returns it when
    the driver reports no failure.  With no driver failure the update
    of a stored row does return a nil error, and the handlers show the
    same: [Update] with a valid body answers 200 with the updated
    record, and [GetByID] after it answers 200 with that record. *)
Theorem update_overwrites_one_row
    (i : Z) (student : types.Student) (r0 : Row) (s : DB) :
  students s !! i = Some r0 →
  (∀ updated s',
     sqlite.UpdateStudentByID i student s = ((updated, None), s') →
     updated = types.mkStudent i (types.Name student) (types.Email student)
                               (types.Age student) ∧
     students s' !! i = Some (row_of student) ∧
     (∀ j, j ≠ i → students s' !! j = students s !! j) ∧
     (∀ got s'', sqlite.GetStudentByID i s' = ((got, None), s'') →
        got = updated) ∧
     (faults s' = [] →
        sqlite.GetStudentByID i s' = ((updated, None), s'))) ∧
  (faults s = [] →
     ∃ s', sqlite.UpdateStudentByID i student s =
             ((types.mkStudent i (types.Name student) (types.Email student)
                               (types.Age student), None), s') ∧
           faults s' = []) ∧
  (∀ r, strconv.ParseInt (http.PathValue_id r) = (i, None) →
        json.Decode (http.Body r) types.zero = (student, None) →
        validator.Struct student = None →
        faults s = [] →
     ∃ s', student.Update r s =
             (response.WriteJSON 200
                (response.of_Student
                   (types.mkStudent i (types.Name student)
                      (types.Email student) (types.Age student))), s') ∧
           student.GetByID r s' =
             (response.WriteJSON 200
                (response.of_Student
                   (types.mkStudent i (types.Name student)
                      (types.Email student) (types.Age student))), s')).
Proof.
  intros Hr0. split; [|split].
  3: { intros r Hid Hdec Hvalid Hf. eexists.
       rewrite (Update_decoded r i student s Hid Hdec), Hvalid. simpl.
       rewrite (UpdateStudentByID_healthy i student s Hf), Hr0.
       split; [done|].
       rewrite (GetByID_parsed r i _ Hid). simpl.
       rewrite GetStudentByID_healthy by done. simpl.
       rewrite (alter_present _ r0) by done. by rewrite lookup_insert_eq. }
  - intros updated s' Hu.
    pose proof (UpdateStudentByID_result _ _ _ _ _ Hu) as Hupd.
    apply UpdateStudentByID_ok in Hu as (Ht & _).
    rewrite (alter_present _ r0) in Ht by done.
    assert (Hrow : students s' !! i = Some (row_of student))
      by (rewrite Ht; apply lookup_insert_eq).
    split_and!; [done|done| | |].
    + intros j Hj. rewrite Ht. by apply lookup_insert_ne.
    + intros got s'' Hget.
      apply GetStudentByID_ok in Hget as (r & Hr & ->).
      rewrite Hrow in Hr. injection Hr as <-. by rewrite Hupd.
    + intros Hf. rewrite (GetStudentByID_healthy i s' Hf), Hrow.
      by rewrite Hupd.
  - intros Hf. eexists.
    rewrite (UpdateStudentByID_healthy i student s Hf), Hr0. done.
Qed.

Lemma update_overwrites_one_row_witness :
  let s := (scenario.run [scenario.Create "Asha" "asha@test.com" 20;
                          scenario.Create "Ravi" "ravi@test.com" 21]
              (sqlite.New [], [])).1 in
  let student := types.mkStudent 0 "Asha K" "ak@test.com" 30 in
  ∃ s', sqlite.UpdateStudentByID 1 student s =
          ((types.mkStudent 1 "Asha K" "ak@test.com" 30, None), s') ∧
        faults s' = [].
Proof.
  intros s student.
  refine (proj1 (proj2 (update_overwrites_one_row 1 student
                          (mkRow "Asha" "asha@test.com" 20) s _)) _);
    vm_compute; reflexivity.
Defined.

(** C4.  With no driver failure, [DeleteStudentByID] returns a nil
    error for every id, with or without a row; a second delete of the
    same id returns the same nil error and leaves the state the first
    one left; after the delete, [GetStudentByID] of that id fails with
    the not-found error; and the delete of an id without a row leaves
    the store as it was. *)
Theorem delete_is_idempotent (id : Z) (s : DB) :
  faults s = [] →
  ∃ s1,
    sqlite.DeleteStudentByID id s = (None, s1) ∧
    sqlite.DeleteStudentByID id s1 = (None, s1) ∧
    students s1 = delete id (students s) ∧
    (∀ j, j ≠ id → students s1 !! j = students s !! j) ∧
    sqlite.GetStudentByID id s1 = ((types.zero, Some (not_found id)), s1) ∧
    (students s !! id = None → s1 = s).
Proof.
  intros Hf.
  exists (mkDB (delete id (students s)) (sqlite_sequence s) []).
  split_and!.
  - by apply DeleteStudentByID_healthy.
  - rewrite DeleteStudentByID_healthy by done. simpl.
    by rewrite delete_delete_eq.
  - done.
  - intros j Hj. simpl. by apply lookup_delete_ne.
  - rewrite GetStudentByID_healthy by done. simpl.
    by rewrite lookup_delete_eq.
  - intros Hnone. rewrite delete_id by done. rewrite <- Hf. apply DB_eta.
Qed.

Lemma delete_is_idempotent_witness :
  let s := (scenario.run [scenario.Create "Asha" "asha@test.com" 20]
              (sqlite.New [], [])).1 in
  ∃ s1,
    sqlite.DeleteStudentByID 1 s = (None, s1) ∧
    sqlite.DeleteStudentByID 1 s1 = (None, s1) ∧
    students s1 = delete 1 (students s) ∧
    (∀ j, j ≠ 1 → students s1 !! j = students s !! j) ∧
    sqlite.GetStudentByID 1 s1 = ((types.zero, Some (not_found 1)), s1) ∧
    (students s !! 1 = None → s1 = s).
Proof.
  intros s. apply (delete_is_idempotent 1 s). vm_compute; reflexivity.
Defined.

(** C5.  [New] and [Update] put the decoded body through the same
    check: it passes exactly when the name and the email are not empty
    and the age is not 0; a body that fails it gets from both the same
    answer, status 400 with the sentences of the failing fields, and
    the storage is not called; a body that passes goes on to the
    storage in both.  A body with a name and an email but age 0 is
    answered 400 with the message [field Age is required]. *)
Theorem validation_is_shared_and_rejects_zero_age
    {S : Type} `{!storage.Storage S}
    (r : http.Request) (intID : Z) (student : types.Student) (st : S) :
  json.Decode (http.Body r) types.zero = (student, None) →
  strconv.ParseInt (http.PathValue_id r) = (intID, None) →
  (validator.Struct student = None ↔
     types.Name student ≠ "" ∧ types.Email student ≠ "" ∧
     types.Age student ≠ 0) ∧
  (∀ errs, validator.Struct student = Some errs →
     student.New r st =
       (response.WriteJSON 400
          (response.of_Response (response.ValidationError errs)), st) ∧
     student.Update r st = student.New r st) ∧
  (validator.Struct student = None →
     response.StatusCode (student.New r st).1 ≠ 400 ∧
     response.StatusCode (student.Update r st).1 ≠ 400) ∧
  (types.Name student ≠ "" → types.Email student ≠ "" →
   types.Age student = 0 →
     student.New r st =
       (response.mkWritten "application/json" 400
          (envelope "field Age is required"), st) ∧
     student.Update r st =
       (response.mkWritten "application/json" 400
          (envelope "field Age is required"), st)).
Proof.
  intros Hdec Hid.
  rewrite (New_decoded r student st Hdec).
  rewrite (Update_decoded r intID student st Hid Hdec).
  split_and!.
  - apply Struct_None.
  - intros errs ->. done.
  - intros ->. split.
    + by destruct (storage.CreateStudent _ _ _ st) as [[? [?|]] ?].
    + by destruct (storage.UpdateStudentByID _ _ st) as [[? [?|]] ?].
  - intros Hn He Ha. by rewrite (Struct_only_age student Hn He Ha).
Qed.

Lemma validation_is_shared_and_rejects_zero_age_witness :
  let r := http.mkRequest "1"
             (json.Value (json.Object [("name", json.Str "Asha");
                                       ("email", json.Str "asha@test.com");
                                       ("age", json.Int 0)])) in
  student.New r (sqlite.New []) =
    (response.mkWritten "application/json" 400
       (envelope "field Age is required"), sqlite.New []) ∧
  student.Update r (sqlite.New []) =
    (response.mkWritten "application/json" 400
       (envelope "field Age is required"), sqlite.New []).
Proof.
  intros r.
  apply (validation_is_shared_and_rejects_zero_age r 1
           (types.mkStudent 0 "Asha" "asha@test.com" 0) (sqlite.New []));
    vm_compute; (reflexivity || discriminate).
Defined.

(** C6.  On a table without rows and with no driver failure,
    [GetStudents] returns the empty slice that is not nil, and
    [GetList] answers 200 with the JSON array without elements.  And
    whatever the table holds, a 200 of [GetList] carries a JSON array,
    never [null]: the slice [GetStudents] returns with a nil error is
    never the nil slice. *)
Theorem list_of_empty_table_is_empty_array (r : http.Request) (s : DB) :
  (students s = ∅ → faults s = [] →
     sqlite.GetStudents s = ((slice_of [], None), s) ∧
     student.GetList r s =
       (response.mkWritten "application/json" 200 (json.Array []), s)) ∧
  (∀ w s', student.GetList r s = (w, s') →
     response.StatusCode w = 200 → ∃ l, response.Body w = json.Array l).
Proof.
  split.
  - intros Hempty Hf.
    assert (Hget : sqlite.GetStudents s = ((slice_of [], None), s)).
    { rewrite (GetStudents_healthy s Hf), Hempty, map_to_list_empty. done. }
    split; [done|]. unfold student.GetList. simpl. by rewrite Hget.
  - intros w s'. unfold student.GetList. simpl.
    destruct (sqlite.GetStudents s) as [[sl [e|]] s1] eqn:Hget.
    + intros [= <- _]. simpl. done.
    + apply GetStudents_not_nil in Hget as [l ->].
      intros [= <- _] _. simpl. by eexists.
Qed.

Lemma list_of_empty_table_is_empty_array_witness :
  let r := http.mkRequest "" json.Empty in
  sqlite.GetStudents (sqlite.New []) = ((slice_of [], None), sqlite.New []) ∧
  student.GetList r (sqlite.New []) =
    (response.mkWritten "application/json" 200 (json.Array []), sqlite.New []).
Proof.
  intros r.
  apply (list_of_empty_table_is_empty_array r (sqlite.New [])); reflexivity.
Defined.

(** C7.  For a path id that parses to an integer [id]: an id that no
    [CreateStudent] ever returned has no row, and an id whose row was
    deleted has none either, whatever is done to the store afterwards;
    for an id without a row, [GetByID] answers with status 500, not
    404, and with the error envelope carrying the text of the error of
    [GetStudentByID], with no driver failure the not-found text.  Any
    other error of [GetStudentByID], on any state, is answered the same
    way, status 500 and its text in the same field, as is the failure
    of the driver to prepare the statement. *)
Theorem get_of_missing_id_answers_500 (r : http.Request) (id : Z) :
  strconv.ParseInt (http.PathValue_id r) = (id, None) →
  (∀ fs ops s ids,
     scenario.run ops (sqlite.New fs, []) = (s, ids) → id ∉ ids →
     students s !! id = None) ∧
  (∀ fs ops0 s0 ids0 s1 ops s ids,
     scenario.run ops0 (sqlite.New fs, []) = (s0, ids0) → id ∈ ids0 →
     sqlite.DeleteStudentByID id s0 = (None, s1) →
     scenario.run ops (s1, ids0) = (s, ids) →
     students s !! id = None) ∧
  (∀ s, students s !! id = None →
     (∀ w s', student.GetByID r s = (w, s') →
        response.StatusCode w = 500 ∧ response.StatusCode w ≠ 404 ∧
        ∃ st err, sqlite.GetStudentByID id s = ((st, Some err), s') ∧
                  response.Body w = envelope (Error err)) ∧
     (faults s = [] →
        student.GetByID r s =
          (response.mkWritten "application/json" 500
             (envelope ("no student found with id: " +:+ pretty id)), s))) ∧
  (∀ (s2 : DB) st err s2',
     sqlite.GetStudentByID id s2 = ((st, Some err), s2') →
     student.GetByID r s2 =
       (response.mkWritten "application/json" 500 (envelope (Error err)), s2')) ∧
  (∀ (s2 : DB) msg fs, faults s2 = Some msg :: fs →
     (student.GetByID r s2).1 =
       response.mkWritten "application/json" 500
         (envelope ("GetStudentByID: prepare: " +:+ msg))).
Proof.
  intros Hid. split_and!.
  - intros fs ops s ids Hrun Hnew.
    assert (Hinv : scenario.rows_were_created (s, ids)).
    { rewrite <- Hrun. apply run_rows_were_created.
      intros k [x Hx]. simpl in Hx. by rewrite lookup_empty in Hx. }
    destruct (students s !! id) as [r0|] eqn:Hr0; [|done].
    destruct Hnew. apply (Hinv id). simpl. by rewrite Hr0.
  - intros fs ops0 s0 ids0 s1 ops s ids Hrun0 Hin Hdel Hrun.
    assert (Hinv : scenario.ids_below_sequence (s0, ids0)).
    { rewrite <- Hrun0. apply run_ids_below_sequence. constructor. }
    apply DeleteStudentByID_ok in Hdel as [Ht Hq].
    assert (Hgone : scenario.used_and_absent id (s1, ids0)).
    { split; simpl.
      - rewrite Ht. apply lookup_delete_eq.
      - rewrite Hq. unfold scenario.ids_below_sequence in Hinv.
        rewrite Forall_forall in Hinv. by apply Hinv. }
    apply (run_used_and_absent id ops) in Hgone. rewrite Hrun in Hgone.
    apply Hgone.
  - intros s Hnone. split.
    + intros w s'. rewrite (GetByID_parsed r id s Hid). simpl.
      destruct (sqlite.GetStudentByID id s) as [[st [e|]] s1] eqn:Hget.
      * intros [= <- <-]. simpl. split_and!; [done|done|]. by exists st, e.
      * apply GetStudentByID_ok in Hget as (r0 & Hr0 & _). congruence.
    + intros Hf. rewrite (GetByID_parsed r id s Hid). simpl.
      by rewrite (GetStudentByID_healthy id s Hf), Hnone.
  - intros s2 st err s2' Hget. rewrite (GetByID_parsed r id s2 Hid). simpl.
    by rewrite Hget.
  - intros s2 msg fs Hfs. rewrite (GetByID_parsed r id s2 Hid). simpl.
    unfold sqlite.GetStudentByID, Prepare, driver. by rewrite Hfs.
Qed.

Lemma get_of_missing_id_answers_500_witness :
  let s := (scenario.run [scenario.Create "Asha" "asha@test.com" 20;
                          scenario.Delete 1] (sqlite.New [], [])).1 in
  student.GetByID (http.mkRequest "1" json.Empty) s =
    (response.mkWritten "application/json" 500
       (envelope "no student found with id: 1"), s).
Proof.
  intros s.
  refine (proj2 (proj1 (proj2 (proj2
            (get_of_missing_id_answers_500 (http.mkRequest "1" json.Empty) 1 _)))
            s _) _);
    vm_compute; reflexivity.
Defined.

(** C8.  When the select runs and no row matches the id,
    [GetStudentByID] fails with the not-found error, an error that
    wraps nothing and whose text is the not-found text for that id.
    Every other error it returns wraps its cause and has a text that is
    the not-found text of no id, so a caller can tell the two apart,
    by [errors.Unwrap] or by the text; and the not-found error is only
    returned when no row matches. *)
Theorem not_found_error_is_distinct (id : Z) (s : DB) :
  (students s !! id = None → faults s = [] →
     sqlite.GetStudentByID id s = ((types.zero, Some (not_found id)), s)) ∧
  Error (not_found id) = "no student found with id: " +:+ pretty id ∧
  (∀ st e s', sqlite.GetStudentByID id s = ((st, Some e), s') →
     (e = not_found id ∧ Unwrap e = None ∧ students s !! id = None) ∨
     (∃ cause, Unwrap e = Some cause ∧
               (∀ id', e ≠ not_found id') ∧
               (∀ id', Error e ≠ Error (not_found id')))).
Proof.
  split_and!.
  - intros Hnone Hf. by rewrite (GetStudentByID_healthy id s Hf), Hnone.
  - done.
  - intros st e s'. unfold sqlite.GetStudentByID, Prepare, QueryRowScan.
    driver_cases s.
    + intros [= _ <- _]. right. eexists. split_and!; [done|done|].
      intros id'. simpl. discriminate.
    + driver_cases s0.
      * destruct (driver_error _ _ _ Hd0) as [msg ->].
        case_decide; [discriminate|]. intros [= _ <- _]. right.
        eexists. split_and!; [done|done|]. intros id'. simpl. discriminate.
      * rewrite Ht0, Ht. destruct (students s !! id) as [r0|]; simpl.
        -- intros [=].
        -- intros [= _ <- _]. left. done.
Qed.

Lemma not_found_error_is_distinct_witness :
  sqlite.GetStudentByID 5 (sqlite.New []) =
    ((types.zero, Some (not_found 5)), sqlite.New []).
Proof.
  apply (not_found_error_is_distinct 5 (sqlite.New [])); reflexivity.
Defined.

(** C9, as the code has it.  Behind any implementation of the storage
    interface, an answer of [New] or of [Update] with status 400 leaves
    the state of the storage exactly as the handler found it, so no
    method of the storage was called (an implementation that logs its
    calls would show them); the empty body, the body that is not JSON
    and the body that fails the validation are all answered 400; and
    every answer is either a result under a success status or the error
    envelope under 400 or 500, never a mixture.  On SQLite, [New] and
    [Delete] are all-or-nothing: under their success status the row is
    stored, or removed, whole, and under any other status the rows and
    the sequence are those of before the request.  [Update] is so under
    200 (the row holds the whole new name, email and age, nothing else
    changed) and under 400 (nothing changed), but not under 500: the
    statement may already have rewritten the row when the read that
    follows fails. *)
Theorem all_or_nothing_except_update_under_500
    {S : Type} `{!storage.Storage S} (r : http.Request) (st : S) (s : DB) :
  (∀ w st', student.New r st = (w, st') →
     (response.StatusCode w = 400 → st' = st) ∧
     ((response.StatusCode w = 201 ∧
       ∃ lastID, response.Body w = response.Encode (response.of_id lastID)) ∨
      ((response.StatusCode w = 400 ∨ response.StatusCode w = 500) ∧
       ∃ msg, response.Body w = envelope msg))) ∧
  (∀ w st', student.Update r st = (w, st') →
     (response.StatusCode w = 400 → st' = st) ∧
     ((response.StatusCode w = 200 ∧
       ∃ updated,
         response.Body w = response.Encode (response.of_Student updated)) ∨
      ((response.StatusCode w = 400 ∨ response.StatusCode w = 500) ∧
       ∃ msg, response.Body w = envelope msg))) ∧
  (∀ student,
     (∃ e, json.Decode (http.Body r) types.zero = (student, Some e)) ∨
     (json.Decode (http.Body r) types.zero = (student, None) ∧
      ∃ errs, validator.Struct student = Some errs) →
     response.StatusCode (student.New r st).1 = 400 ∧
     response.StatusCode (student.Update r st).1 = 400) ∧
  (∀ w s', student.New r s = (w, s') →
     (response.StatusCode w = 201 →
        ∃ student id,
          json.Decode (http.Body r) types.zero = (student, None) ∧
          response.Body w = json.Object [("id", json.Int id)] ∧
          students s !! id = None ∧
          students s' = <[id := row_of student]> (students s)) ∧
     (response.StatusCode w ≠ 201 →
        students s' = students s ∧
        sqlite_sequence s' = sqlite_sequence s)) ∧
  (∀ w s', student.Delete r s = (w, s') →
     sqlite_sequence s' = sqlite_sequence s ∧
     (response.StatusCode w = 200 →
        ∃ id, strconv.ParseInt (http.PathValue_id r) = (id, None) ∧
              students s' = delete id (students s)) ∧
     (response.StatusCode w ≠ 200 → students s' = students s)) ∧
  (∀ w s', student.Update r s = (w, s') →
     sqlite_sequence s' = sqlite_sequence s ∧
     (response.StatusCode w = 200 →
        ∃ id student,
          strconv.ParseInt (http.PathValue_id r) = (id, None) ∧
          json.Decode (http.Body r) types.zero = (student, None) ∧
          is_Some (students s !! id) ∧
          students s' = <[id := row_of student]> (students s)) ∧
     (response.StatusCode w = 400 → s' = s) ∧
     (response.StatusCode w = 500 →
        ∃ id student,
          strconv.ParseInt (http.PathValue_id r) = (id, None) ∧
          json.Decode (http.Body r) types.zero = (student, None) ∧
          (students s' = students s ∨
           students s' = alter (λ _, row_of student) id (students s)))).
Proof.
  split_and!.
  - intros w st'. apply New_answers.
  - intros w st'. apply Update_answers.
  - intros student Hbad. unfold student.New, student.Update.
    destruct (strconv.ParseInt (http.PathValue_id r)) as [intID [e0|]];
      destruct Hbad as [[e ->]|[-> [errs ->]]];
      try destruct (errors.Is e EOF); done.
  - intros w s'. unfold student.New.
    destruct (json.Decode (http.Body r) types.zero) as [student [e|]].
    { destruct (errors.Is e EOF); intros [= <- <-]; done. }
    destruct (validator.Struct student) as [errs|]; [intros [= <- <-]; done|].
    cbn [storage.CreateStudent SQLite_Storage].
    destruct (sqlite.CreateStudent _ _ _ s) as [[lastID [e|]] s1] eqn:Hc;
      intros [= <- <-].
    + apply CreateStudent_err in Hc as (_ & Ht & Hq). done.
    + apply CreateStudent_ok in Hc as (-> & Ht & _).
      split; [intros _|done]. exists student, (largest_rowid s + 1).
      split_and!; [done|done| |done].
      destruct (students s !! (largest_rowid s + 1)) as [r0|] eqn:Hr0; [|done].
      pose proof (largest_rowid_ge_rowid s _ (mk_is_Some _ _ Hr0)). lia.
  - intros w s'. unfold student.Delete.
    destruct (strconv.ParseInt (http.PathValue_id r)) as [id [e0|]].
    { intros [= <- <-]. done. }
    cbn [storage.DeleteStudentByID SQLite_Storage].
    destruct (sqlite.DeleteStudentByID id s) as [[e|] s1] eqn:Hd;
      intros [= <- <-].
    + apply DeleteStudentByID_err in Hd as [Ht Hq]. done.
    + apply DeleteStudentByID_ok in Hd as [Ht Hq].
      split_and!; [done| |done]. intros _. by exists id.
  - intros w s'. unfold student.Update.
    destruct (strconv.ParseInt (http.PathValue_id r)) as [id [e0|]].
    { intros [= <- <-]. done. }
    destruct (json.Decode (http.Body r) types.zero) as [student [e|]].
    { destruct (errors.Is e EOF); intros [= <- <-]; done. }
    destruct (validator.Struct student) as [errs|]; [intros [= <- <-]; done|].
    cbn [storage.UpdateStudentByID SQLite_Storage].
    destruct (sqlite.UpdateStudentByID id student s) as [[x [e|]] s1] eqn:Hu;
      intros [= <- <-].
    + apply UpdateStudentByID_frame in Hu as [Hq Ht].
      split_and!; [done..|]. intros _. by exists id, student.
    + pose proof (UpdateStudentByID_row _ _ _ _ _ Hu) as Hrow.
      apply UpdateStudentByID_ok in Hu as (Ht & Hq & _).
      split_and!; [done| |done..]. intros _. exists id, student.
      destruct Hrow as [r0 Hr0]. split_and!; [done|done|by eexists|].
      by rewrite Ht, (alter_present _ r0).
Qed.

Lemma all_or_nothing_except_update_under_500_witness :
  let st : list spy.call * DB := ([], sqlite.New []) in
  let r := http.mkRequest "1"
             (json.Value (json.Object [("name", json.Str "");
                                       ("email", json.Str "a@b.com");
                                       ("age", json.Int 10)])) in
  (student.New r st).2 = st ∧ (student.Update r st).2 = st.
Proof.
  intros st r. split.
  - refine (proj1 (proj1 (all_or_nothing_except_update_under_500 r st (sqlite.New []))
                     (student.New r st).1 (student.New r st).2 _) _);
      vm_compute; reflexivity.
  - refine (proj1 (proj1 (proj2
              (all_or_nothing_except_update_under_500 r st (sqlite.New [])))
              (student.Update r st).1 (student.Update r st).2 _) _);
      vm_compute; reflexivity.
Defined.

(** C9, as the claim states it, fails: not every operation is
    all-or-nothing.  A store with one student, a driver that fails at
    the fifth call: the create takes two calls, the [UPDATE] two more,
    and the read that follows cannot be prepared.  [Update] answers 500
    with the error envelope, and the row is rewritten all the same. *)
Lemma update_is_not_all_or_nothing :
  ¬ (∀ (r : http.Request) (s : DB) w s',
       student.Update r s = (w, s') →
       response.StatusCode w ≠ 200 →
       students s' = students s).
Proof.
  intros Hall.
  pose (s := (scenario.run [scenario.Create "Asha" "asha@test.com" 20]
                (sqlite.New [None; None; None; None; Some "database is locked"],
                 [])).1).
  pose (r := http.mkRequest "1"
               (json.Value (json.Object [("name", json.Str "Asha K");
                                         ("email", json.Str "ak@test.com");
                                         ("age", json.Int 30)]))).
  specialize (Hall r s (student.Update r s).1 (student.Update r s).2).
  assert (Hrows : students (student.Update r s).2 = students s).
  { apply Hall; [by destruct (student.Update r s)|]. vm_compute. discriminate. }
  apply (f_equal (λ m : gmap Z Row, m !! 1)) in Hrows.
  vm_compute in Hrows. discriminate.
Qed.

(** C10, as the code has it.  A member of the body of [New] under the
    key of the [ID] field (["id"], in any case of the letters) whose
    value is an integer that fits [int], or [null], is ignored: the
    answer and the state of the storage are those of the body without
    the member.  A member under that key with any other value (a
    string, a boolean, a number with a fraction or outside [int], an
    array, an object) makes the decoding fail, and the request is
    answered 400 without a call of the storage.  A body decoded without
    an error and valid reaches the storage as [CreateStudent] of its
    name, email and age; and on SQLite the id of a 201 is the one the
    table assigns, one more than the largest rowid so far, unused
    before, with the decoded name, email and age stored under it. *)
Theorem create_ignores_integer_id
    {S : Type} `{!storage.Storage S}
    (before after : list (string * json.value)) (key : string)
    (v : json.value) (path : string) (st : S) :
  json.find_field key = Some json.fID →
  ((v = json.Null ∨ (∃ z, v = json.Int z ∧ - 2 ^ 63 ≤ z < 2 ^ 63)) →
     student.New
       (http.mkRequest path (json.Value (json.Object (before ++ (key, v) :: after)%list))) st =
     student.New
       (http.mkRequest path (json.Value (json.Object (before ++ after)%list))) st) ∧
  (v ≠ json.Null → (∀ z, v = json.Int z → ¬ (- 2 ^ 63 ≤ z < 2 ^ 63)) →
     ∃ msg,
       student.New
         (http.mkRequest path (json.Value (json.Object (before ++ (key, v) :: after)%list))) st =
       (response.mkWritten "application/json" 400 (envelope msg), st)) ∧
  (∀ r student,
     json.Decode (http.Body r) types.zero = (student, None) →
     validator.Struct student = None →
     student.New r st =
       match storage.CreateStudent (types.Name student) (types.Email student)
                                   (types.Age student) st with
       | ((_, Some err), st1) =>
           (response.WriteJSON 500
              (response.of_Response (response.GeneralError err)), st1)
       | ((lastID, None), st1) =>
           (response.WriteJSON 201 (response.of_id lastID), st1)
       end) ∧
  (∀ r (s : DB) w s',
     student.New r s = (w, s') → response.StatusCode w = 201 →
     ∃ student,
       json.Decode (http.Body r) types.zero = (student, None) ∧
       response.Body w = json.Object [("id", json.Int (largest_rowid s + 1))] ∧
       students s !! (largest_rowid s + 1) = None ∧
       students s' = <[largest_rowid s + 1 := row_of student]> (students s)).
Proof.
  intros Hkey. split_and!.
  - intros Hfits. apply New_same_fields. cbn [http.Body json.Decode].
    rewrite !object_app. cbn [json.object]. rewrite Hkey.
    apply object_same_fields. by apply set_field_ID_fits.
  - intros Hnull Hint. unfold student.New. cbn [http.Body json.Decode].
    rewrite object_app. cbn [json.object]. rewrite Hkey.
    pose proof (object_type_error before (types.zero, None) (or_introl eq_refl))
      as Hbefore.
    destruct (json.object before (types.zero, None)) as [s0 saved].
    rewrite (set_field_ID_misfit v s0 saved Hnull Hint).
    assert (∃ msg, json.saveError saved (json.UnmarshalTypeError v json.fID)
                   = Some (errorString msg)) as [msg ->].
    { destruct Hbefore as [Hs|[msg Hs]]; simpl in Hs; subst; simpl; by eexists. }
    destruct (object_error after s0 (errorString msg)) as [s1 ->].
    simpl. by exists msg.
  - intros r student Hdec Hvalid.
    by rewrite (New_decoded r student st Hdec), Hvalid.
  - intros r s w s' Hnew Hcode. unfold student.New in Hnew.
    destruct (json.Decode (http.Body r) types.zero) as [student [e|]].
    { destruct (errors.Is e EOF); injection Hnew as <- _; done. }
    destruct (validator.Struct student) as [errs|].
    { injection Hnew as <- _; done. }
    simpl in Hnew.
    destruct (sqlite.CreateStudent _ _ _ s) as [[lastID [e|]] s1] eqn:Hc;
      injection Hnew as <- <-; [done|].
    apply CreateStudent_ok in Hc as (-> & Ht & _).
    exists student. split_and!; [done|done| |done].
    destruct (students s !! (largest_rowid s + 1)) as [r0|] eqn:Hr0; [|done].
    pose proof (largest_rowid_ge_rowid s _ (mk_is_Some _ _ Hr0)). lia.
Qed.

Lemma create_ignores_integer_id_witness :
  let members := [("name", json.Str "Asha"); ("email", json.Str "asha@test.com");
                  ("age", json.Int 20)] in
  student.New
    (http.mkRequest "" (json.Value (json.Object (("id", json.Int 77) :: members))))
    (sqlite.New []) =
  student.New (http.mkRequest "" (json.Value (json.Object members))) (sqlite.New []).
Proof.
  intros members.
  refine (proj1 (create_ignores_integer_id [] members "id" (json.Int 77) ""
                   (sqlite.New []) _) _).
  - reflexivity.
  - right. exists 77. split; [reflexivity|lia].
Defined.

(** C10, as the claim states it, fails: an ["id"] that is a JSON string
    is not ignored.  The same body is answered 201 without the member
    and 400 with it. *)
Lemma create_does_not_ignore_string_id :
  ¬ (∀ v : json.value,
       student.New
         (http.mkRequest ""
            (json.Value (json.Object [("id", v); ("name", json.Str "Asha");
                                      ("email", json.Str "asha@test.com");
                                      ("age", json.Int 20)])))
         (sqlite.New []) =
       student.New
         (http.mkRequest ""
            (json.Value (json.Object [("name", json.Str "Asha");
                                      ("email", json.Str "asha@test.com");
                                      ("age", json.Int 20)])))
         (sqlite.New [])).
Proof.
  intros Hall. specialize (Hall (json.Str "7")).
  apply (f_equal (λ a, response.StatusCode a.1)) in Hall.
  vm_compute in Hall. discriminate.
Qed.

End Claims.


(** ** Further properties of the storage *)

Section MoreStorage.
Import sql sqlite scenario.

Lemma fold_max_bounded (m : gmap Z Row) (b : Z) :
  (∀ k, is_Some (m !! k) → k ≤ b) →
  map_fold (λ k _ acc, Z.max k acc) b m = b.
Proof.
  apply (map_fold_weak_ind
           (λ top (m : gmap Z Row), (∀ k, is_Some (m !! k) → k ≤ b) → top = b)).
  - done.
  - intros i x m' r Hi IH Hall.
    assert (Hib : i ≤ b) by (apply Hall; rewrite lookup_insert_eq; by eexists).
    rewrite IH; [lia|]. intros k Hk. apply Hall.
    destruct (decide (i = k)) as [->|Hne]; [by rewrite lookup_insert_eq|].
    by rewrite lookup_insert_ne.
Qed.

Lemma largest_rowid_is_sequence s :
  (∀ k, is_Some (students s !! k) → k ≤ sqlite_sequence s) →
  largest_rowid s = sqlite_sequence s.
Proof. apply fold_max_bounded. Qed.

Lemma countdown_S n : countdown (S n) = Z.of_nat (S n) :: countdown n.
Proof.
  unfold countdown. rewrite seq_S, fmap_app, reverse_app. reflexivity.
Qed.

Lemma step_ids_are_consecutive o st :
  ids_are_consecutive st → ids_are_consecutive (step o st).
Proof.
  destruct st as [s ids]. unfold ids_are_consecutive, step. simpl.
  intros (Hids & Hseq & Hrows).
  assert (Hle : ∀ k, is_Some (students s !! k) → k ≤ sqlite_sequence s)
    by (intros k Hk; apply Hrows in Hk; lia).
  destruct o as [name email age|id| |id student|id].
  - destruct (CreateStudent name email age s) as [[id [e|]] s'] eqn:Hc; simpl.
    + apply CreateStudent_err in Hc as (_ & -> & ->). done.
    + apply CreateStudent_ok in Hc as (-> & -> & ->).
      rewrite (largest_rowid_is_sequence s Hle), Hseq.
      split_and!.
      * rewrite countdown_S, <- Hids. f_equal. lia.
      * lia.
      * intros k. destruct (decide (Z.of_nat (List.length ids) + 1 = k)) as [<-|Hne].
        -- intros _. lia.
        -- rewrite lookup_insert_ne by done. intros Hk. apply Hrows in Hk. lia.
  - destruct (GetStudentByID id s) as [r s'] eqn:Hg. simpl.
    apply GetStudentByID_frame in Hg as [-> ->]. done.
  - destruct (GetStudents s) as [r s'] eqn:Hg. simpl.
    apply GetStudents_frame in Hg as [-> ->]. done.
  - destruct (UpdateStudentByID id student s) as [r s'] eqn:Hu. simpl.
    apply UpdateStudentByID_frame in Hu as [-> [->| ->]]; [done|].
    split_and!; [done..|]. intros k Hk. apply Hrows. by eapply alter_is_Some.
  - destruct (DeleteStudentByID id s) as [r s'] eqn:Hd. simpl.
    apply DeleteStudentByID_frame in Hd as [-> [->| ->]]; [done|].
    split_and!; [done..|]. intros k Hk. apply Hrows. by eapply delete_is_Some.
Qed.

Lemma run_ids_are_consecutive ops st :
  ids_are_consecutive st → ids_are_consecutive (run ops st).
Proof.
  unfold run. revert st. induction ops as [|o ops IH]; intros st Hst; simpl.
  - done.
  - apply IH. by apply step_ids_are_consecutive.
Qed.

(** X1.  On a store that started empty, the ids that [CreateStudent]
    returns are 1, 2, 3, ... in the order of the successful calls,
    whatever was read, updated or deleted in between and whatever calls
    failed: after [n] successful creates the ids returned are [n], ...,
    [1], the sequence of the table stands at [n], and the next successful
    create returns [n + 1].  No id is ever handed out twice. *)
Theorem created_ids_count_up
    (fs : list (option string)) (ops : list op) (s : DB) (ids : list Z) :
  run ops (New fs, []) = (s, ids) →
  ids = countdown (List.length ids) ∧
  NoDup ids ∧
  sqlite_sequence s = Z.of_nat (List.length ids) ∧
  (∀ name email age id s',
     CreateStudent name email age s = ((id, None), s') →
     id = Z.of_nat (List.length ids) + 1).
Proof.
  intros Hrun.
  assert (Hinv : ids_are_consecutive (s, ids)).
  { rewrite <- Hrun. apply run_ids_are_consecutive.
    split_and!; [done..|]. intros k [x Hx]. simpl in Hx.
    by rewrite lookup_empty in Hx. }
  destruct Hinv as (Hids & Hseq & Hrows). simpl in *.
  split_and!; [done| |done|].
  - rewrite Hids. unfold countdown. rewrite reverse_Permutation.
    apply NoDup_fmap_2; [|apply NoDup_seq]. intros a b Hab. lia.
  - intros name email age id s' Hc.
    apply CreateStudent_ok in Hc as (-> & _).
    rewrite largest_rowid_is_sequence, Hseq; [done|].
    intros k Hk. apply Hrows in Hk. lia.
Qed.

Lemma created_ids_count_up_witness :
  let ops := [Create "Asha" "asha@test.com" 20; Delete 1;
              Create "Ravi" "ravi@test.com" 21; Get 9;
              Create "Mina" "mina@test.com" 22] in
  let st := run ops (New [None; None; Some "database is locked"], []) in
  st.2 = countdown (List.length st.2) ∧
  NoDup st.2 ∧
  sqlite_sequence st.1 = Z.of_nat (List.length st.2) ∧
  (∀ name email age id s',
     CreateStudent name email age st.1 = ((id, None), s') →
     id = Z.of_nat (List.length st.2) + 1).
Proof.
  intros ops st.
  apply (created_ids_count_up [None; None; Some "database is locked"] ops st.1 st.2).
  vm_compute. reflexivity.
Defined.

Lemma CreateStudent_healthy name email age s :
  faults s = [] →
  CreateStudent name email age s =
    if decide (MAX_ROWID ≤ largest_rowid s)
    then ((0, Some (Errorf_w "CreateStudent: exec: "
                      (errorString "database or disk is full"))), s)
    else ((largest_rowid s + 1, None),
          mkDB (<[largest_rowid s + 1 := mkRow name email age]> (students s))
               (largest_rowid s + 1) []).
Proof.
  intros Hf. unfold CreateStudent, Prepare, ExecInsert, LastInsertId.
  rewrite !(driver_healthy s Hf). case_decide; simpl; by rewrite ?Hf.
Qed.

Lemma student_of_inj (a b : Z * Row) :
  student_of a.1 a.2 = student_of b.1 b.2 → a = b.
Proof.
  destruct a as [ka [na ea aa]], b as [kb [nb eb ab]]. unfold student_of. simpl.
  by intros [= -> -> -> ->].
Qed.

(** What [GetStudents] lists when the driver reports no failure. *)
Lemma GetStudents_elem (m : gmap Z Row) x :
  x ∈ ((λ r : Z * Row, student_of r.1 r.2) <$> map_to_list m) ↔
  m !! types.ID x = Some (row_of x).
Proof.
  rewrite list_elem_of_fmap. split.
  - intros ([k r] & -> & Hin). apply elem_of_map_to_list in Hin.
    simpl. by destruct r.
  - intros Hx. exists (types.ID x, row_of x). split.
    + by destruct x.
    + by apply elem_of_map_to_list.
Qed.

(** X2.  With no driver failure [GetStudents] returns the table row by
    row: a student is in the slice exactly when the table holds its
    name, email and age under its id, no student is listed twice, and
    the slice is as long as the table has rows. *)
Theorem list_holds_every_row_once (s : DB) :
  faults s = [] →
  ∃ l, GetStudents s = ((slice_of l, None), s) ∧
       (∀ x, x ∈ l ↔ students s !! types.ID x = Some (row_of x)) ∧
       NoDup l ∧
       List.length l = size (students s).
Proof.
  intros Hf. eexists. split; [by apply GetStudents_healthy|]. split_and!.
  - intros x. apply GetStudents_elem.
  - apply NoDup_fmap_2_strong; [|apply NoDup_map_to_list].
    intros a b _ _. apply student_of_inj.
  - by rewrite length_fmap, length_map_to_list.
Qed.

Lemma list_holds_every_row_once_witness :
  let s := (run [Create "Asha" "asha@test.com" 20;
                 Create "Ravi" "ravi@test.com" 21] (New [], [])).1 in
  ∃ l, GetStudents s = ((slice_of l, None), s) ∧
       (∀ x, x ∈ l ↔ students s !! types.ID x = Some (row_of x)) ∧
       NoDup l ∧
       List.length l = size (students s).
Proof.
  intros s. apply (list_holds_every_row_once s). vm_compute. reflexivity.
Defined.

(** X3.  With no driver failure, the list after a successful
    [CreateStudent] is the list before it and the new student, under the
    id that was returned: nothing else appears, nothing is lost. *)
Theorem list_after_create
    (name email : string) (age : Z) (s : DB) (id : Z) (s' : DB) :
  faults s = [] →
  CreateStudent name email age s = ((id, None), s') →
  ∃ l l',
    GetStudents s = ((slice_of l, None), s) ∧
    GetStudents s' = ((slice_of l', None), s') ∧
    (∀ x, x ∈ l' ↔ x = types.mkStudent id name email age ∨ x ∈ l) ∧
    List.length l' = S (List.length l).
Proof.
  intros Hf Hc.
  pose proof (largest_rowid_ge_rowid s) as Htop.
  rewrite (CreateStudent_healthy name email age s Hf) in Hc.
  case_decide as Hfull; [done|]. injection Hc as <- <-.
  assert (Hfresh : students s !! (largest_rowid s + 1) = None).
  { destruct (students s !! (largest_rowid s + 1)) as [r0|] eqn:Hr0; [|done].
    pose proof (Htop _ (mk_is_Some _ _ Hr0)). lia. }
  remember (largest_rowid s + 1) as id eqn:Hid. clear Hid Htop Hfull.
  eexists _, _. split; [by apply GetStudents_healthy|].
  split; [by apply GetStudents_healthy|]. simpl. split.
  - intros x. rewrite !GetStudents_elem. simpl.
    destruct (decide (types.ID x = id)) as [Hx|Hx].
    + rewrite Hx, lookup_insert_eq, Hfresh. split.
      * intros Hrow. left. destruct x as [i n e a]. simpl in *.
        unfold row_of in Hrow. simpl in Hrow. injection Hrow as <- <- <-.
        by subst.
      * intros [->|?]; [done|done].
    + rewrite lookup_insert_ne by done. split; [by right|].
      intros [->|?]; [done|done].
  - rewrite !length_fmap, !length_map_to_list.
    by apply map_size_insert_None.
Qed.

Lemma list_after_create_witness :
  let s := (run [Create "Asha" "asha@test.com" 20] (New [], [])).1 in
  let r := CreateStudent "Ravi" "ravi@test.com" 21 s in
  ∃ l l',
    GetStudents s = ((slice_of l, None), s) ∧
    GetStudents r.2 = ((slice_of l', None), r.2) ∧
    (∀ x, x ∈ l' ↔ x = types.mkStudent 2 "Ravi" "ravi@test.com" 21 ∨ x ∈ l) ∧
    List.length l' = S (List.length l).
Proof.
  intros s r.
  apply (list_after_create "Ravi" "ravi@test.com" 21 s 2 r.2);
    vm_compute; reflexivity.
Defined.

(** X4.  The two reading methods never write: whatever the driver does,
    [GetStudentByID] and [GetStudents] leave the rows and the sequence
    of the table as they found them, and so do the handlers [GetByID]
    and [GetList] on every request. *)
Theorem reads_never_write (id : Z) (r : http.Request) (s : DB) :
  (students (GetStudentByID id s).2 = students s ∧
   sqlite_sequence (GetStudentByID id s).2 = sqlite_sequence s) ∧
  (students (GetStudents s).2 = students s ∧
   sqlite_sequence (GetStudents s).2 = sqlite_sequence s) ∧
  (students (student.GetByID r s).2 = students s ∧
   sqlite_sequence (student.GetByID r s).2 = sqlite_sequence s) ∧
  (students (student.GetList r s).2 = students s ∧
   sqlite_sequence (student.GetList r s).2 = sqlite_sequence s).
Proof.
  split; [|split; [|split]].
  - destruct (GetStudentByID id s) as [x s'] eqn:Hg.
    apply GetStudentByID_frame in Hg. exact Hg.
  - destruct (GetStudents s) as [x s'] eqn:Hg.
    apply GetStudents_frame in Hg. exact Hg.
  - unfold student.GetByID.
    destruct (strconv.ParseInt (http.PathValue_id r)) as [intID [e|]]; [done|].
    simpl. destruct (GetStudentByID intID s) as [[x oe] s'] eqn:Hg.
    apply GetStudentByID_frame in Hg. destruct oe; exact Hg.
  - unfold student.GetList. simpl.
    destruct (GetStudents s) as [[x oe] s'] eqn:Hg.
    apply GetStudents_frame in Hg. destruct oe; exact Hg.
Qed.

(** X5.  A [CreateStudent] or a [DeleteStudentByID] that returns an
    error has written nothing: the rows and the sequence are those of
    before the call, and the id returned with the error is 0. *)
Theorem failed_create_or_delete_writes_nothing (s : DB) :
  (∀ name email age id e s',
     CreateStudent name email age s = ((id, Some e), s') →
     id = 0 ∧ students s' = students s ∧
     sqlite_sequence s' = sqlite_sequence s) ∧
  (∀ id e s',
     DeleteStudentByID id s = (Some e, s') →
     students s' = students s ∧ sqlite_sequence s' = sqlite_sequence s).
Proof.
  split.
  - intros name email age id e s'. apply CreateStudent_err.
  - intros id e s'. unfold DeleteStudentByID, Prepare, ExecDelete.
    driver_cases s; [intros [= _ <-]; done|].
    driver_cases s0; [|intros [=]].
    intros [= _ <-]. split; congruence.
Qed.

Lemma failed_create_or_delete_writes_nothing_witness :
  let s := (run [Create "Asha" "asha@test.com" 20]
              (New [None; None; None; Some "disk I/O error"], [])).1 in
  (CreateStudent "Ravi" "ravi@test.com" 21 s).1.1 = 0 ∧
  students (CreateStudent "Ravi" "ravi@test.com" 21 s).2 = students s ∧
  sqlite_sequence (CreateStudent "Ravi" "ravi@test.com" 21 s).2 =
    sqlite_sequence s.
Proof.
  intros s.
  refine (proj1 (failed_create_or_delete_writes_nothing s)
            "Ravi" "ravi@test.com" 21 _
            (Errorf_w "CreateStudent: exec: " (errorString "disk I/O error"))
            _ _).
  vm_compute. reflexivity.
Defined.

(** X6.  [UpdateStudentByID] is not all-or-nothing.  When the statement
    has run and the driver then fails to prepare the read that follows,
    the method returns the error of [GetStudentByID] although the row is
    already overwritten, and [Update] answers 500 with that text for a
    record that now holds the new values. *)
Theorem update_can_fail_after_writing
    (id : Z) (student : types.Student) (r0 : Row) (msg : string)
    (fs : list (option string)) (s : DB) :
  students s !! id = Some r0 →
  faults s = None :: None :: Some msg :: fs →
  ∃ s',
    UpdateStudentByID id student s =
      ((types.zero,
        Some (Errorf_w "GetStudentByID: prepare: " (errorString msg))), s') ∧
    students s' !! id = Some (row_of student) ∧
    faults s' = fs ∧
    (∀ r, strconv.ParseInt (http.PathValue_id r) = (id, None) →
          json.Decode (http.Body r) types.zero = (student, None) →
          validator.Struct student = None →
          student.Update r s =
            (response.mkWritten "application/json" 500
               (envelope ("GetStudentByID: prepare: " +:+ msg)), s')).
Proof.
  intros Hr0 Hfs. destruct s as [t q f]. simpl in *. subst f.
  eexists. split_and!.
  - unfold UpdateStudentByID, GetStudentByID, Prepare, ExecUpdate, driver.
    simpl. reflexivity.
  - simpl. rewrite lookup_alter. case_decide; [|done]. by rewrite Hr0.
  - done.
  - intros r Hid Hdec Hvalid.
    rewrite (Update_decoded r id student _ Hid Hdec), Hvalid. reflexivity.
Qed.

Lemma update_can_fail_after_writing_witness :
  let s0 := (run [Create "Asha" "asha@test.com" 20] (New [], [])).1 in
  let s := mkDB (students s0) (sqlite_sequence s0)
             [None; None; Some "database is locked"] in
  let student := types.mkStudent 0 "Asha K" "ak@test.com" 30 in
  ∃ s',
    UpdateStudentByID 1 student s =
      ((types.zero,
        Some (Errorf_w "GetStudentByID: prepare: "
                (errorString "database is locked"))), s') ∧
    students s' !! 1 = Some (row_of student) ∧
    faults s' = [] ∧
    (∀ r, strconv.ParseInt (http.PathValue_id r) = (1, None) →
          json.Decode (http.Body r) types.zero = (student, None) →
          validator.Struct student = None →
          student.Update r s =
            (response.mkWritten "application/json" 500
               (envelope ("GetStudentByID: prepare: " +:+ "database is locked")), s')).
Proof.
  intros s0 s student.
  apply (update_can_fail_after_writing 1 student (mkRow "Asha" "asha@test.com" 20)
           "database is locked" [] s); vm_compute; reflexivity.
Defined.

End MoreStorage.

(** ** Further properties of the handlers *)

Section MoreHandlers.
Import sql response.

(** X7.  Behind any storage, every answer of the five handlers is
    written as [application/json]; [GetByID] and [Delete] answer 200, 400
    or 500 and [GetList] 200 or 500, never 404 or anything else; a 200
    carries the result (the student, the list, or the status
    ["deleted"]) and every other answer carries the error envelope. *)
Theorem handlers_answer_json
    {S : Type} `{!storage.Storage S} (r : http.Request) (st : S) :
  (ContentType (student.New r st).1 = "application/json" ∧
   ContentType (student.GetByID r st).1 = "application/json" ∧
   ContentType (student.GetList r st).1 = "application/json" ∧
   ContentType (student.Update r st).1 = "application/json" ∧
   ContentType (student.Delete r st).1 = "application/json") ∧
  ((StatusCode (student.GetByID r st).1 = 200 ∧
    ∃ x, Body (student.GetByID r st).1 = Student_json x) ∨
   ((StatusCode (student.GetByID r st).1 = 400 ∨
     StatusCode (student.GetByID r st).1 = 500) ∧
    ∃ msg, Body (student.GetByID r st).1 = envelope msg)) ∧
  ((StatusCode (student.GetList r st).1 = 200 ∧
    ∃ l, Body (student.GetList r st).1 = Encode (of_Students l)) ∨
   (StatusCode (student.GetList r st).1 = 500 ∧
    ∃ msg, Body (student.GetList r st).1 = envelope msg)) ∧
  ((StatusCode (student.Delete r st).1 = 200 ∧
    Body (student.Delete r st).1 = json.Object [("status", json.Str "deleted")]) ∨
   ((StatusCode (student.Delete r st).1 = 400 ∨
     StatusCode (student.Delete r st).1 = 500) ∧
    ∃ msg, Body (student.Delete r st).1 = envelope msg)).
Proof.
  split; [|split; [|split]].
  - unfold student.New, student.GetByID, student.GetList, student.Update,
      student.Delete.
    destruct (strconv.ParseInt (http.PathValue_id r)) as [intID [e0|]];
      destruct (json.Decode (http.Body r) types.zero) as [student [e|]];
      try destruct (errors.Is e EOF);
      try destruct (validator.Struct student) as [errs|];
      try destruct (storage.CreateStudent _ _ _ st) as [[? [?|]] ?];
      try destruct (storage.GetStudentByID _ st) as [[? [?|]] ?];
      try destruct (storage.GetStudents st) as [[? [?|]] ?];
      try destruct (storage.UpdateStudentByID _ _ st) as [[? [?|]] ?];
      try destruct (storage.DeleteStudentByID _ st) as [[?|] ?];
      done.
  - unfold student.GetByID.
    destruct (strconv.ParseInt (http.PathValue_id r)) as [intID [e0|]].
    + right. simpl. split; [by left|by eexists].
    + destruct (storage.GetStudentByID intID st) as [[x [e|]] st1]; simpl.
      * right. split; [by right|by eexists].
      * left. split; [done|by eexists].
  - unfold student.GetList.
    destruct (storage.GetStudents st) as [[l [e|]] st1]; simpl.
    + right. split; [done|by eexists].
    + left. split; [done|by eexists].
  - unfold student.Delete.
    destruct (strconv.ParseInt (http.PathValue_id r)) as [intID [e0|]].
    + right. simpl. split; [by left|by eexists].
    + destruct (storage.DeleteStudentByID intID st) as [[e|] st1]; simpl.
      * right. split; [by right|by eexists].
      * left. done.
Qed.

(** X8.  A path id that [strconv.ParseInt] rejects is answered 400 with
    the text [invalid id: must be an integer] by [GetByID], [Update] and
    [Delete] alike, whatever the body holds, and the storage is left as
    it was: [Update] does not even look at the body before the id. *)
Theorem bad_path_id_is_rejected_first
    {S : Type} `{!storage.Storage S} (r : http.Request) (st : S) (e : error) :
  (strconv.ParseInt (http.PathValue_id r)).2 = Some e →
  student.GetByID r st =
    (mkWritten "application/json" 400
       (envelope "invalid id: must be an integer"), st) ∧
  student.Update r st =
    (mkWritten "application/json" 400
       (envelope "invalid id: must be an integer"), st) ∧
  student.Delete r st =
    (mkWritten "application/json" 400
       (envelope "invalid id: must be an integer"), st).
Proof.
  unfold student.GetByID, student.Update, student.Delete.
  destruct (strconv.ParseInt (http.PathValue_id r)) as [intID [e0|]]; simpl;
    [done|discriminate].
Qed.

Lemma bad_path_id_is_rejected_first_witness :
  let r := http.mkRequest "12a" json.Empty in
  student.GetByID r (sqlite.New []) =
    (mkWritten "application/json" 400
       (envelope "invalid id: must be an integer"), sqlite.New []) ∧
  student.Update r (sqlite.New []) =
    (mkWritten "application/json" 400
       (envelope "invalid id: must be an integer"), sqlite.New []) ∧
  student.Delete r (sqlite.New []) =
    (mkWritten "application/json" 400
       (envelope "invalid id: must be an integer"), sqlite.New []).
Proof.
  intros r.
  apply (bad_path_id_is_rejected_first r (sqlite.New []) strconv.ErrSyntax).
  vm_compute. reflexivity.
Defined.

(** X9.  [Delete] on SQLite with an id that parses answers 200 with
    [{"status": "deleted"}] when the driver reports no failure, whether
    the id has a row or not; the row of that id is gone afterwards and no
    other row is touched; the same request again gets the same answer;
    and [GetByID] for that path then answers 500 with the not-found
    text.  When the driver fails to prepare the statement, [Delete]
    answers 500 with that failure and deletes nothing. *)
Theorem delete_handler_answers_deleted
    (r : http.Request) (id : Z) (s : DB) :
  strconv.ParseInt (http.PathValue_id r) = (id, None) →
  (faults s = [] →
     ∃ s',
       student.Delete r s =
         (mkWritten "application/json" 200
            (json.Object [("status", json.Str "deleted")]), s') ∧
       students s' = delete id (students s) ∧
       student.Delete r s' =
         (mkWritten "application/json" 200
            (json.Object [("status", json.Str "deleted")]), s') ∧
       student.GetByID r s' =
         (mkWritten "application/json" 500
            (envelope ("no student found with id: " +:+ pretty id)), s')) ∧
  (∀ msg fs, faults s = Some msg :: fs →
     (student.Delete r s).1 =
       mkWritten "application/json" 500
         (envelope ("DeleteStudentByID: prepare: " +:+ msg)) ∧
     students (student.Delete r s).2 = students s).
Proof.
  intros Hid. split.
  - intros Hf.
    exists (mkDB (delete id (students s)) (sqlite_sequence s) []).
    assert (Hdel : ∀ s0, faults s0 = [] →
              student.Delete r s0 =
                (mkWritten "application/json" 200
                   (json.Object [("status", json.Str "deleted")]),
                 mkDB (delete id (students s0)) (sqlite_sequence s0) [])).
    { intros s0 Hf0. unfold student.Delete. rewrite Hid.
      cbn [storage.DeleteStudentByID SQLite_Storage].
      by rewrite (DeleteStudentByID_healthy id s0 Hf0). }
    split_and!.
    + by apply Hdel.
    + done.
    + rewrite Hdel by done. cbn [students sqlite_sequence].
      by rewrite delete_delete_eq.
    + rewrite (GetByID_parsed r id _ Hid).
      cbn [storage.GetStudentByID SQLite_Storage].
      rewrite GetStudentByID_healthy by done. cbn [students].
      by rewrite lookup_delete_eq.
  - intros msg fs Hfs. unfold student.Delete. rewrite Hid. simpl.
    unfold sqlite.DeleteStudentByID, Prepare, driver. rewrite Hfs. done.
Qed.

Lemma delete_handler_answers_deleted_witness :
  let r := http.mkRequest "41" json.Empty in
  ∃ s',
    student.Delete r (sqlite.New []) =
      (mkWritten "application/json" 200
         (json.Object [("status", json.Str "deleted")]), s') ∧
    students s' = delete 41 (students (sqlite.New [])) ∧
    student.Delete r s' =
      (mkWritten "application/json" 200
         (json.Object [("status", json.Str "deleted")]), s') ∧
    student.GetByID r s' =
      (mkWritten "application/json" 500
         (envelope ("no student found with id: " +:+ pretty 41)), s').
Proof.
  intros r.
  refine (proj1 (delete_handler_answers_deleted r 41 (sqlite.New []) _) _);
    reflexivity.
Defined.

(** X10.  [Update] does not create: on SQLite, a valid body sent to the
    path of an id without a row is answered 500 with the not-found text
    when the driver reports no failure, and the store is left exactly as
    it was. *)
Theorem update_handler_does_not_create
    (r : http.Request) (id : Z) (student : types.Student) (s : DB) :
  strconv.ParseInt (http.PathValue_id r) = (id, None) →
  json.Decode (http.Body r) types.zero = (student, None) →
  validator.Struct student = None →
  students s !! id = None →
  faults s = [] →
  student.Update r s =
    (mkWritten "application/json" 500
       (envelope ("no student found with id: " +:+ pretty id)), s).
Proof.
  intros Hid Hdec Hvalid Hnone Hf.
  rewrite (Update_decoded r id student s Hid Hdec), Hvalid. simpl.
  rewrite (UpdateStudentByID_healthy id student s Hf), Hnone.
  rewrite alter_absent by done. rewrite <- Hf, DB_eta. done.
Qed.

Lemma update_handler_does_not_create_witness :
  let r := http.mkRequest "3"
             (json.Value (json.Object [("name", json.Str "Asha");
                                       ("email", json.Str "asha@test.com");
                                       ("age", json.Int 20)])) in
  student.Update r (sqlite.New []) =
    (mkWritten "application/json" 500
       (envelope ("no student found with id: " +:+ pretty 3)), sqlite.New []).
Proof.
  intros r.
  apply (update_handler_does_not_create r 3
           (types.mkStudent 0 "Asha" "asha@test.com" 20) (sqlite.New []));
    vm_compute; reflexivity.
Defined.

(** [UpdateStudentByID] on SQLite reads the name, the email and the age
    of its argument, not its [ID]. *)
Lemma UpdateStudentByID_fields id (a b : types.Student) (s : DB) :
  types.Name a = types.Name b → types.Email a = types.Email b →
  types.Age a = types.Age b →
  sqlite.UpdateStudentByID id a s = sqlite.UpdateStudentByID id b s.
Proof.
  unfold sqlite.UpdateStudentByID. by intros -> -> ->.
Qed.

Lemma Update_same_fields r1 r2 (s : DB) :
  http.PathValue_id r1 = http.PathValue_id r2 →
  same_fields (json.Decode (http.Body r1) types.zero)
              (json.Decode (http.Body r2) types.zero) →
  student.Update r1 s = student.Update r2 s.
Proof.
  unfold student.Update. intros ->.
  destruct (strconv.ParseInt (http.PathValue_id r2)) as [intID [e0|]]; [done|].
  destruct (json.Decode (http.Body r1) types.zero) as [a o1].
  destruct (json.Decode (http.Body r2) types.zero) as [b o2].
  unfold same_fields. simpl. intros (Hn & He & Ha & ->).
  destruct o2 as [e|]; [done|].
  assert (Hv : validator.Struct a = validator.Struct b).
  { unfold validator.Struct, validator.field_errors. by rewrite Hn, He, Ha. }
  rewrite Hv. destruct (validator.Struct b); [done|].
  by rewrite (UpdateStudentByID_fields intID a b s Hn He Ha).
Qed.

(** X11.  [Update] on SQLite cannot move a record to another id: a
    member of the body under the key of [ID] with an integer that fits
    [int], or [null], changes neither the answer nor the store, and the
    student in a 200 carries the id of the path. *)
Theorem update_keeps_the_path_id
    (before after : list (string * json.value)) (key : string)
    (v : json.value) (path : string) (s : DB) :
  json.find_field key = Some json.fID →
  (v = json.Null ∨ (∃ z, v = json.Int z ∧ - 2 ^ 63 ≤ z < 2 ^ 63)) →
  student.Update
    (http.mkRequest path (json.Value (json.Object (before ++ (key, v) :: after)%list))) s =
  student.Update
    (http.mkRequest path (json.Value (json.Object (before ++ after)%list))) s ∧
  (∀ r w s', student.Update r s = (w, s') → StatusCode w = 200 →
     ∃ intID x, strconv.ParseInt (http.PathValue_id r) = (intID, None) ∧
                Body w = Student_json x ∧ types.ID x = intID).
Proof.
  intros Hkey Hfits. split.
  - apply Update_same_fields; [done|]. cbn [http.Body json.Decode].
    rewrite !object_app. cbn [json.object]. rewrite Hkey.
    apply object_same_fields. by apply set_field_ID_fits.
  - intros r w s'. unfold student.Update.
    destruct (strconv.ParseInt (http.PathValue_id r)) as [intID [e0|]].
    { intros [= <- _]. done. }
    destruct (json.Decode (http.Body r) types.zero) as [student [e|]].
    { destruct (errors.Is e EOF); intros [= <- _]; done. }
    destruct (validator.Struct student); [intros [= <- _]; done|].
    simpl.
    destruct (sqlite.UpdateStudentByID intID student s) as [[x [e|]] s1] eqn:Hu;
      intros [= <- _]; [done|]. intros _.
    exists intID, x. split_and!; [done..|].
    apply UpdateStudentByID_result in Hu. by subst.
Qed.

Lemma update_keeps_the_path_id_witness :
  let members := [("name", json.Str "Asha K"); ("email", json.Str "ak@test.com");
                  ("age", json.Int 30)] in
  let s := (scenario.run [scenario.Create "Asha" "asha@test.com" 20]
              (sqlite.New [], [])).1 in
  student.Update
    (http.mkRequest "1" (json.Value (json.Object (("ID", json.Int 99) :: members)))) s =
  student.Update (http.mkRequest "1" (json.Value (json.Object members))) s.
Proof.
  intros members s.
  refine (proj1 (update_keeps_the_path_id [] members "ID" (json.Int 99) "1" s _ _)).
  - reflexivity.
  - right. exists 99. split; [reflexivity|lia].
Defined.

(** X12.  A handler calls the storage at most once, and only the method
    that belongs to it: behind a storage that logs its calls, [New]
    leaves the log as it was under 400 and otherwise adds one
    [CreateStudent] with the decoded name, email and age; [GetByID],
    [Update] and [Delete] add nothing under 400 and otherwise one call of
    their method with the id of the path ([Update] also hands over the
    whole decoded student); [GetList] always adds one [GetStudents]. *)
Theorem handlers_call_storage_at_most_once
    {S : Type} `{!storage.Storage S}
    (r : http.Request) (log : list spy.call) (st : S) :
  ((StatusCode (student.New r (log, st)).1 = 400 ∧
    (student.New r (log, st)).2 = (log, st)) ∨
   (StatusCode (student.New r (log, st)).1 ≠ 400 ∧
    ∃ student, json.Decode (http.Body r) types.zero = (student, None) ∧
      (student.New r (log, st)).2.1 =
        (log ++ [spy.CreateStudent_called (types.Name student)
                   (types.Email student) (types.Age student)])%list)) ∧
  ((StatusCode (student.GetByID r (log, st)).1 = 400 ∧
    (student.GetByID r (log, st)).2 = (log, st)) ∨
   (StatusCode (student.GetByID r (log, st)).1 ≠ 400 ∧
    ∃ id, strconv.ParseInt (http.PathValue_id r) = (id, None) ∧
      (student.GetByID r (log, st)).2.1 =
        (log ++ [spy.GetStudentByID_called id])%list)) ∧
  (student.GetList r (log, st)).2.1 = (log ++ [spy.GetStudents_called])%list ∧
  ((StatusCode (student.Update r (log, st)).1 = 400 ∧
    (student.Update r (log, st)).2 = (log, st)) ∨
   (StatusCode (student.Update r (log, st)).1 ≠ 400 ∧
    ∃ id student,
      strconv.ParseInt (http.PathValue_id r) = (id, None) ∧
      json.Decode (http.Body r) types.zero = (student, None) ∧
      (student.Update r (log, st)).2.1 =
        (log ++ [spy.UpdateStudentByID_called id student])%list)) ∧
  ((StatusCode (student.Delete r (log, st)).1 = 400 ∧
    (student.Delete r (log, st)).2 = (log, st)) ∨
   (StatusCode (student.Delete r (log, st)).1 ≠ 400 ∧
    ∃ id, strconv.ParseInt (http.PathValue_id r) = (id, None) ∧
      (student.Delete r (log, st)).2.1 =
        (log ++ [spy.DeleteStudentByID_called id])%list)).
Proof.
  split; [|split; [|split; [|split]]].
  - unfold student.New.
    destruct (json.Decode (http.Body r) types.zero) as [student [e|]].
    { left. by destruct (errors.Is e EOF). }
    destruct (validator.Struct student); [by left|].
    right. cbn [storage.CreateStudent spy.Spy_Storage]. unfold spy.logged.
    cbn [fst snd].
    destruct (storage.CreateStudent _ _ _ st) as [[lastID [e|]] st1];
      (split; [done|by exists student]).
  - unfold student.GetByID.
    destruct (strconv.ParseInt (http.PathValue_id r)) as [id [e0|]]; [by left|].
    right. cbn [storage.GetStudentByID spy.Spy_Storage]. unfold spy.logged.
    cbn [fst snd].
    destruct (storage.GetStudentByID id st) as [[x [e|]] st1];
      (split; [done|by exists id]).
  - unfold student.GetList.
    cbn [storage.GetStudents spy.Spy_Storage]. unfold spy.logged. cbn [fst snd].
    by destruct (storage.GetStudents st) as [[x [e|]] st1].
  - unfold student.Update.
    destruct (strconv.ParseInt (http.PathValue_id r)) as [id [e0|]]; [by left|].
    destruct (json.Decode (http.Body r) types.zero) as [student [e|]].
    { left. by destruct (errors.Is e EOF). }
    destruct (validator.Struct student); [by left|].
    right. cbn [storage.UpdateStudentByID spy.Spy_Storage]. unfold spy.logged.
    cbn [fst snd].
    destruct (storage.UpdateStudentByID id student st) as [[x [e|]] st1];
      (split; [done|by exists id, student]).
  - unfold student.Delete.
    destruct (strconv.ParseInt (http.PathValue_id r)) as [id [e0|]]; [by left|].
    right. cbn [storage.DeleteStudentByID spy.Spy_Storage]. unfold spy.logged.
    cbn [fst snd].
    destruct (storage.DeleteStudentByID id st) as [[e|] st1];
      (split; [done|by exists id]).
Qed.

(** X13.  What the validation reports for a student: at least one field
    error when it fails, each with the tag [required], so each sentence
    of the answer reads [field F is required] (the sentences for an
    email format or for another rule are never produced); the field is
    [Name], [Email] or [Age], never [ID]; and a field is reported exactly
    when it holds the zero value of its type. *)
Theorem validation_reports_required_fields
    (s : types.Student) (errs : validator.ValidationErrors) :
  validator.Struct s = Some errs →
  errs ≠ [] ∧
  (∀ e, e ∈ errs →
     validator.ActualTag e = "required" ∧
     message e = "field " +:+ validator.Field e +:+ " is required" ∧
     (validator.Field e = "Name" ∨ validator.Field e = "Email" ∨
      validator.Field e = "Age")) ∧
  (validator.mkFieldError "Name" "required" ∈ errs ↔ types.Name s = "") ∧
  (validator.mkFieldError "Email" "required" ∈ errs ↔ types.Email s = "") ∧
  (validator.mkFieldError "Age" "required" ∈ errs ↔ types.Age s = 0) ∧
  (List.length errs ≤ 3)%nat.
Proof.
  unfold validator.Struct, validator.field_errors,
    validator.required_string, validator.required_int.
  repeat case_decide; simpl; intros [= <-];
    (split; [done|]);
    (split; [intros e He; rewrite ?elem_of_cons, elem_of_nil in He;
             intuition (subst; simpl; auto)|]);
    split_and!; try (simpl; lia);
    rewrite ?elem_of_cons, elem_of_nil; intuition congruence.
Qed.

Lemma validation_reports_required_fields_witness :
  let errs := [validator.mkFieldError "Name" "required";
               validator.mkFieldError "Age" "required"] in
  errs ≠ [] ∧
  (∀ e, e ∈ errs →
     validator.ActualTag e = "required" ∧
     message e = "field " +:+ validator.Field e +:+ " is required" ∧
     (validator.Field e = "Name" ∨ validator.Field e = "Email" ∨
      validator.Field e = "Age")) ∧
  (validator.mkFieldError "Name" "required" ∈ errs ↔ "" = "") ∧
  (validator.mkFieldError "Email" "required" ∈ errs ↔ "a@b.com" = "") ∧
  (validator.mkFieldError "Age" "required" ∈ errs ↔ 0 = 0) ∧
  (List.length errs ≤ 3)%nat.
Proof.
  intros errs.
  apply (validation_reports_required_fields (types.mkStudent 7 "" "a@b.com" 0) errs).
  reflexivity.
Defined.

End MoreHandlers.

(** ** The id of the path *)

Section PathID.
Import sql response.

Lemma digit_pretty_N_char (x : N) :
  (x < 10)%N → strconv.digit (pretty_N_char x) = Some (Z.of_N x).
Proof.
  intros Hx. destruct x as [|p]; [reflexivity|].
  do 4 (try (destruct p as [p|p|]; try reflexivity)); lia.
Qed.

(** Reading the digits that [pretty] wrote for [x] in front of [s]
    shifts the number read so far and adds [x]. *)
Lemma digits_pretty_N_go (x : N) :
  ∃ k : Z, 0 ≤ k ∧
    ∀ s acc, strconv.digits (pretty_N_go x s) acc =
             strconv.digits s (acc * 10 ^ k + Z.of_N x).
Proof.
  induction (N.lt_wf_0 x) as [x _ IH].
  destruct (decide (x = 0)%N) as [->|Hx].
  - exists 0. split; [done|]. intros s acc. rewrite pretty_N_go_0.
    f_equal. lia.
  - destruct (IH (x `div` 10)%N) as (k & Hk & IHk); [apply N.div_lt; lia|].
    exists (k + 1). split; [lia|]. intros s acc.
    rewrite pretty_N_go_step by lia. rewrite IHk. cbn [strconv.digits].
    rewrite digit_pretty_N_char by (apply N.mod_lt; lia). f_equal.
    rewrite Z.pow_add_r, Z.pow_1_r by lia. rewrite N2Z.inj_div, N2Z.inj_mod.
    pose proof (Z.div_mod (Z.of_N x) 10 ltac:(lia)) as Hdm.
    change (Z.of_N 10) with 10. clear IH IHk.
    generalize dependent (Z.of_N x / 10). generalize (Z.of_N x mod 10).
    generalize (10 ^ k). intros p m q Hdm. lia.
Qed.

Lemma pretty_N_go_head (x : N) (s : string) :
  (0 < x)%N →
  ∃ c r, pretty_N_go x s = String c r ∧ is_Some (strconv.digit c).
Proof.
  revert s. induction (N.lt_wf_0 x) as [x _ IH]. intros s Hx.
  rewrite pretty_N_go_step by done.
  destruct (decide (x `div` 10 = 0)%N) as [->|Hd].
  - rewrite pretty_N_go_0. eexists _, _. split; [done|].
    rewrite digit_pretty_N_char by (apply N.mod_lt; lia). by eexists.
  - apply IH; [apply N.div_lt; lia|by apply N.neq_0_lt_0].
Qed.

Lemma ParseInt_digit_head (c : Ascii.ascii) (r : string) :
  is_Some (strconv.digit c) →
  strconv.ParseInt (String c r) =
    match strconv.digits (String c r) 0 with
    | None => (0, Some strconv.ErrSyntax)
    | Some un =>
        if bool_decide (2 ^ 63 ≤ un) then (2 ^ 63 - 1, Some strconv.ErrRange)
        else (un, None)
    end.
Proof.
  intros [d Hd].
  destruct c as [[] [] [] [] [] [] [] []];
    first [by vm_compute in Hd | reflexivity].
Qed.

Lemma ParseInt_minus (c : Ascii.ascii) (r : string) :
  strconv.ParseInt (String "-"%char (String c r)) =
    match strconv.digits (String c r) 0 with
    | None => (0, Some strconv.ErrSyntax)
    | Some un =>
        if bool_decide (2 ^ 63 < un) then (- 2 ^ 63, Some strconv.ErrRange)
        else (- un, None)
    end.
Proof. reflexivity. Qed.

Lemma digits_nonneg (s : string) (acc un : Z) :
  0 ≤ acc → strconv.digits s acc = Some un → 0 ≤ un.
Proof.
  revert acc. induction s as [|c s IH]; intros acc Hacc; simpl.
  - intros [= <-]. done.
  - unfold strconv.digit. case_decide; [|done]. apply IH. lia.
Qed.

Lemma ParseInt_pretty (z : Z) :
  - 2 ^ 63 ≤ z < 2 ^ 63 → strconv.ParseInt (pretty z) = (z, None).
Proof.
  intros Hz. destruct z as [|p|p].
  - reflexivity.
  - change (pretty (Z.pos p)) with (pretty_N_go (N.pos p) "").
    destruct (pretty_N_go_head (N.pos p) "" ltac:(lia)) as (c & r & Hcr & Hc).
    rewrite Hcr, (ParseInt_digit_head c r Hc), <- Hcr.
    destruct (digits_pretty_N_go (N.pos p)) as (k & _ & ->). simpl.
    rewrite bool_decide_eq_false_2 by lia. done.
  - change (pretty (Z.neg p)) with (String "-"%char (pretty_N_go (N.pos p) "")).
    destruct (pretty_N_go_head (N.pos p) "" ltac:(lia)) as (c & r & Hcr & Hc).
    rewrite Hcr, (ParseInt_minus c r), <- Hcr.
    destruct (digits_pretty_N_go (N.pos p)) as (k & _ & ->). simpl.
    rewrite bool_decide_eq_false_2 by lia. done.
Qed.

(** X14.  The decimal numeral of an integer of the int64 range, as [%d]
    and the JSON encoder write it, is a path id that [strconv.ParseInt]
    accepts and reads back as that integer: every id the store can hand
    out can be sent back in a path, and behind any storage [GetByID] and
    [Delete] hand exactly that integer to the storage and do not answer
    it with 400. *)
Theorem ParseInt_reads_decimal (z : Z) :
  - 2 ^ 63 ≤ z < 2 ^ 63 →
  strconv.ParseInt (pretty z) = (z, None) ∧
  (∀ (S : Type) (H : storage.Storage S) (body : json.Body) (st : S),
     (student.GetByID (http.mkRequest (pretty z) body) st).2 =
       (storage.GetStudentByID z st).2 ∧
     StatusCode (student.GetByID (http.mkRequest (pretty z) body) st).1 ≠ 400 ∧
     (student.Delete (http.mkRequest (pretty z) body) st).2 =
       (storage.DeleteStudentByID z st).2 ∧
     StatusCode (student.Delete (http.mkRequest (pretty z) body) st).1 ≠ 400).
Proof.
  intros Hz. pose proof (ParseInt_pretty z Hz) as Hparse.
  split; [done|]. intros S H body st.
  unfold student.GetByID, student.Delete. cbn [http.PathValue_id].
  rewrite Hparse.
  destruct (storage.GetStudentByID z st) as [[x [e|]] st1];
    destruct (storage.DeleteStudentByID z st) as [[e'|] st2]; done.
Qed.

Lemma ParseInt_reads_decimal_witness :
  strconv.ParseInt (pretty (-9223372036854775808)) = (-9223372036854775808, None).
Proof.
  refine (proj1 (ParseInt_reads_decimal (-9223372036854775808) _)). lia.
Defined.

(** X15.  An id that [strconv.ParseInt] returns with a nil error lies in
    the int64 range, so the handlers never hand the storage an id
    outside of it. *)
Theorem ParseInt_stays_in_int64 (s : string) (n : Z) :
  strconv.ParseInt s = (n, None) → - 2 ^ 63 ≤ n < 2 ^ 63.
Proof.
  unfold strconv.ParseInt.
  destruct (match s with
            | String "+"%char r => (false, r)
            | String "-"%char r => (true, r)
            | _ => (false, s)
            end) as [neg s'].
  destruct s' as [|c s']; [intros [=]|].
  destruct (strconv.digits (String c s') 0) as [un|] eqn:Hun; [|intros [=]].
  apply digits_nonneg in Hun; [|done].
  destruct neg; simpl; repeat case_bool_decide; intros [= <-]; lia.
Qed.

Lemma ParseInt_stays_in_int64_witness :
  - 2 ^ 63 ≤ 1234 < 2 ^ 63.
Proof. apply (ParseInt_stays_in_int64 "+1234" 1234). reflexivity. Defined.

(** X16.  From create to read through the handlers: on SQLite with no
    driver failure (and a sequence that is not negative, as in every
    store that started empty), a [New] answered 201 returns an id whose
    decimal numeral, sent as the path of [GetByID], is answered 200 with
    that id and the decoded name, email and age of the body of [New]. *)
Theorem created_student_can_be_fetched
    (r : http.Request) (s : DB) (w : written) (s' : DB) :
  0 ≤ sqlite_sequence s →
  faults s = [] →
  student.New r s = (w, s') →
  StatusCode w = 201 →
  ∃ id student,
    Body w = json.Object [("id", json.Int id)] ∧
    json.Decode (http.Body r) types.zero = (student, None) ∧
    ∀ body,
      student.GetByID (http.mkRequest (pretty id) body) s' =
        (mkWritten "application/json" 200
           (Student_json
              (types.mkStudent id (types.Name student) (types.Email student)
                 (types.Age student))), s').
Proof.
  intros Hseq Hf Hnew Hcode. unfold student.New in Hnew.
  destruct (json.Decode (http.Body r) types.zero) as [student [e|]].
  { destruct (errors.Is e EOF); injection Hnew as <- _; done. }
  destruct (validator.Struct student) as [errs|].
  { injection Hnew as <- _; done. }
  cbn [storage.CreateStudent SQLite_Storage] in Hnew.
  rewrite (CreateStudent_healthy _ _ _ s Hf) in Hnew.
  pose proof (largest_rowid_ge_sequence s) as Htop.
  case_decide as Hfull; injection Hnew as <- <-; [done|].
  exists (largest_rowid s + 1), student. split_and!; [done..|].
  intros body.
  assert (Hid : strconv.ParseInt (pretty (largest_rowid s + 1))
                = (largest_rowid s + 1, None)).
  { apply ParseInt_pretty. unfold MAX_ROWID in Hfull. lia. }
  rewrite (GetByID_parsed (http.mkRequest (pretty (largest_rowid s + 1)) body)
             (largest_rowid s + 1) _ Hid).
  cbn [storage.GetStudentByID SQLite_Storage].
  rewrite GetStudentByID_healthy by done. cbn [students].
  by rewrite lookup_insert_eq.
Qed.

Lemma created_student_can_be_fetched_witness :
  let r := http.mkRequest ""
             (json.Value (json.Object [("name", json.Str "Asha");
                                       ("email", json.Str "asha@test.com");
                                       ("age", json.Int 20)])) in
  ∃ id student,
    Body (student.New r (sqlite.New [])).1 = json.Object [("id", json.Int id)] ∧
    json.Decode (http.Body r) types.zero = (student, None) ∧
    ∀ body,
      student.GetByID (http.mkRequest (pretty id) body)
        (student.New r (sqlite.New [])).2 =
        (mkWritten "application/json" 200
           (Student_json
              (types.mkStudent id (types.Name student) (types.Email student)
                 (types.Age student))), (student.New r (sqlite.New [])).2).
Proof.
  intros r.
  apply (created_student_can_be_fetched r (sqlite.New [])
           (student.New r (sqlite.New [])).1 (student.New r (sqlite.New [])).2);
    vm_compute; (reflexivity || discriminate).
Defined.

End PathID.


(** ** The configuration *)

Section Config.
Import config.

(** X17.  [MustLoad] prefers the environment: when [CONFIG_PATH] is set,
    the command line is not parsed at all, so neither the [config] flag
    nor a command line that [flag.Parse] would reject changes the
    outcome.  And it returns only what [cleanenv.ReadConfig] filled
    without an error, from a path that is not empty, that comes from
    [CONFIG_PATH] or else from the flag, and for which [os.Stat] did not
    report a missing file. *)
Theorem MustLoad_prefers_the_environment (p : Process) :
  (Getenv p "CONFIG_PATH" ≠ "" →
     ∀ cmdline,
       MustLoad (mkProcess (Getenv p) cmdline (Stat_IsNotExist p) (ReadConfig p))
       = MustLoad p) ∧
  (∀ cfg, MustLoad p = Returns cfg →
     ∃ path,
       path ≠ "" ∧
       (path = Getenv p "CONFIG_PATH" ∨
        (Getenv p "CONFIG_PATH" = "" ∧ flag_Parse p = inl path)) ∧
       Stat_IsNotExist p path = false ∧
       ReadConfig p path zero = (cfg, None)).
Proof.
  split.
  - intros Henv cmdline. unfold MustLoad. simpl.
    destruct (decide (Getenv p "CONFIG_PATH" = "")); done.
  - intros cfg. unfold MustLoad.
    destruct (decide (Getenv p "CONFIG_PATH" = "")) as [Henv|Henv].
    + destruct (flag_Parse p) as [path|status] eqn:Hflag; [|done].
      destruct (decide (path = "")); [done|].
      destruct (Stat_IsNotExist p path) eqn:Hstat; [done|].
      destruct (ReadConfig p path zero) as [cfg' [e|]] eqn:Hread; [done|].
      intros [= <-]. exists path. split_and!; [done|by right|done..].
    + rewrite decide_False by done.
      destruct (Stat_IsNotExist p (Getenv p "CONFIG_PATH")) eqn:Hstat; [done|].
      destruct (ReadConfig p (Getenv p "CONFIG_PATH") zero)
        as [cfg' [e|]] eqn:Hread; [done|].
      intros [= <-]. exists (Getenv p "CONFIG_PATH").
      split_and!; [done|by left|done..].
Qed.

Lemma MustLoad_prefers_the_environment_witness :
  let local := mkConfig "dev" "storage/storage.db" (mkHTTPServer "localhost:8082") in
  let p := mkProcess
             (λ key, if decide (key = "CONFIG_PATH") then "config/local.yaml" else "")
             (inl "config/other.yaml")
             (λ path, bool_decide (path ≠ "config/local.yaml"))
             (λ path cfg, (local, None)) in
  MustLoad (mkProcess (Getenv p) (inr 2) (Stat_IsNotExist p) (ReadConfig p))
  = MustLoad p.
Proof.
  intros local p.
  apply (proj1 (MustLoad_prefers_the_environment p)). vm_compute. discriminate.
Defined.

End Config.
